(** * gesture_classification.model : the Lightning wrapper [LitModel]

    A shallow embedding of [src/gesture_classification/model.py].

    - Tensors of float32 are nested lists over an abstract scalar type [R]
      (class [Scalar]); the operations the wrapper performs on scalars
      ([- 0.5], [torch.sigmoid], [y.float()]) are the methods of the class.
    - Python objects are explicit: configuration values are [pyval], local
      variables that an [if]/[elif] chain may leave unassigned are [option]s
      read through [read_local], exceptions are values of [exn].
    - The mutable [LitModel] object and the calls it makes to its
      collaborators (the backbone, torchmetrics accumulators, [self.log],
      the criterion) are threaded through the monad [M]: a state holding the
      object and the chronological trace of collaborator calls.
    - In-place tensor mutation is modelled on a store of tensor objects. *)

From Stdlib Require Import ZArith QArith Qabs List Lia.
From stdpp Require Import base option list strings gmap.
Import ListNotations.

Local Open Scope string_scope.
Local Open Scope nat_scope.
Local Open Scope list_scope.

(** ** Scalars *)

(** The float32 operations the wrapper applies to tensor elements. *)
Class Scalar (R : Type) := {
  zero : R;
  half : R;                 (* the literal [0.5] *)
  sub : R -> R -> R;        (* [a - b] *)
  sigmoid : R -> R;         (* [torch.sigmoid] on one element *)
  of_label : Z -> R         (* [y.float()] on one element *)
}.

#[global] Instance scalar_inhabited `{Scalar R} : Inhabited R := populate zero.

(** ** Python values and exceptions *)

(** Values a configuration argument such as [use_keypoints] can hold. *)
Inductive pyval :=
| PyNone
| PyBool (b : bool)
| PyInt (z : Z)
| PyStr (s : string).

(** Python's [==] on these values: [bool] is a subtype of [int]
    ([False == 0], [True == 1]); a string only equals a string. *)
Definition py_eq (a b : pyval) : bool :=
  match a, b with
  | PyNone, PyNone => true
  | PyBool x, PyBool y => Bool.eqb x y
  | PyBool x, PyInt y => Z.eqb (Z.b2z x) y
  | PyInt x, PyBool y => Z.eqb x (Z.b2z y)
  | PyInt x, PyInt y => Z.eqb x y
  | PyStr x, PyStr y => String.eqb x y
  | _, _ => false
  end.

(** [a in l] for a list literal [l]. *)
Definition py_in (a : pyval) (l : list pyval) : bool :=
  existsb (py_eq a) l.

Inductive exn :=
| UnboundLocalError (name : string)
| AttributeError (attr : string)
| IndexError
| TypeError.

Inductive result (A : Type) :=
| Ok (a : A)
| Raise (e : exn).
Arguments Ok {A} a.
Arguments Raise {A} e.

(** Reading a local variable that no branch has assigned. *)
Definition read_local {A} (name : string) (v : option A) : result A :=
  match v with
  | Some a => Ok a
  | None => Raise (UnboundLocalError name)
  end.

Definition rbind {A B} (r : result A) (k : A -> result B) : result B :=
  match r with
  | Ok a => k a
  | Raise e => Raise e
  end.

(** ** Tensors *)

Definition tabulate {X} (n : nat) (f : nat -> X) : list X := map f (seq 0 n).

Section Tensors.
Context {R : Type} `{Inhabited R}.

Definition shape5 : Type := nat * nat * nat * nat * nat.

(** A rank-5 tensor: its shape and its elements, outermost axis first. *)
Record Tensor5 := mkTensor5 {
  shape : shape5;
  data : list (list (list (list (list R))))
}.

Definition get5 (x : Tensor5) (i0 i1 i2 i3 i4 : nat) : R :=
  nth i4 (nth i3 (nth i2 (nth i1 (nth i0 (data x) []) []) []) []) inhabitant.

Definition build5 (s : shape5) (f : nat -> nat -> nat -> nat -> nat -> R)
  : list (list (list (list (list R)))) :=
  let '(n0, n1, n2, n3, n4) := s in
  tabulate n0 (fun i0 => tabulate n1 (fun i1 => tabulate n2 (fun i2 =>
    tabulate n3 (fun i3 => tabulate n4 (fun i4 => f i0 i1 i2 i3 i4))))).

Definition rect {X} (n : nat) (P : X -> Prop) (l : list X) : Prop :=
  length l = n /\ Forall P l.

(** The elements of [x] fill exactly the box its shape announces. *)
Definition wf5 (x : Tensor5) : Prop :=
  let '(n0, n1, n2, n3, n4) := shape x in
  rect n0 (rect n1 (rect n2 (rect n3 (fun r : list R => length r = n4)))) (data x).

(** The einops patterns the wrapper uses, and their inverses. *)
Inductive pattern :=
| bthwc_to_bcthw      (* "b t h w c -> b c t h w" *)
| bthwc_to_btchw      (* "b t h w c -> b t c h w" *)
| bcthw_to_bthwc      (* "b c t h w -> b t h w c" *)
| btchw_to_bthwc.     (* "b t c h w -> b t h w c" *)

Definition inverse (p : pattern) : pattern :=
  match p with
  | bthwc_to_bcthw => bcthw_to_bthwc
  | bthwc_to_btchw => btchw_to_bthwc
  | bcthw_to_bthwc => bthwc_to_bcthw
  | btchw_to_bthwc => bthwc_to_btchw
  end.

(** [einops.rearrange] for a pattern that only permutes axes: the output
    element at the permuted index is the input element. *)
Definition rearrange (x : Tensor5) (p : pattern) : Tensor5 :=
  let '(n0, n1, n2, n3, n4) := shape x in
  match p with
  | bthwc_to_bcthw =>
      let s := (n0, n4, n1, n2, n3) in
      mkTensor5 s (build5 s (fun b c t h w => get5 x b t h w c))
  | bthwc_to_btchw =>
      let s := (n0, n1, n4, n2, n3) in
      mkTensor5 s (build5 s (fun b t c h w => get5 x b t h w c))
  | bcthw_to_bthwc =>
      let s := (n0, n2, n3, n4, n1) in
      mkTensor5 s (build5 s (fun b t h w c => get5 x b c t h w))
  | btchw_to_bthwc =>
      let s := (n0, n1, n3, n4, n2) in
      mkTensor5 s (build5 s (fun b t h w c => get5 x b t c h w))
  end.

Definition map5 (f : R -> R) (d : list (list (list (list (list R)))))
  : list (list (list (list (list R)))) :=
  map (map (map (map (map f)))) d.

(** [x[:n]]: the first [n] entries along axis 0. *)
Definition getitem_slice (n : nat) (x : Tensor5) : Tensor5 :=
  let '(n0, n1, n2, n3, n4) := shape x in
  mkTensor5 (Nat.min n n0, n1, n2, n3, n4) (firstn n (data x)).

(** [x[:n] = v]: overwrite the first [n] entries along axis 0 with the
    entries of [v], keeping the rest of [x]. *)
Definition setitem_slice (n : nat) (x v : Tensor5) : Tensor5 :=
  mkTensor5 (shape x) (data v ++ skipn n (data x)).

(** [x + k] / [x - k] for a scalar [k], given as the elementwise map. *)
Definition pointwise (f : R -> R) (x : Tensor5) : Tensor5 :=
  mkTensor5 (shape x) (map5 f (data x)).

End Tensors.
Arguments Tensor5 R : clear implicits.

(** ** Collaborators *)

(** *** torchmetrics *)

(** The five binary statistics the wrapper tracks. *)
Inductive metric_kind :=
| BinaryPrecision
| BinaryAccuracy
| BinaryRecall
| BinaryF1Score
| BinaryJaccardIndex.

(** What torchmetrics keeps for a binary metric and how it evaluates it.
    The library is external; its statistics are an interface here. *)
Class Torchmetrics (R : Type) := {
  mstate : Type;                                    (* accumulated statistics *)
  mempty : mstate;                                  (* fresh or reset *)
  maccum : mstate -> list R -> list Z -> mstate;    (* one more batch seen *)
  mvalue : metric_kind -> mstate -> R               (* the statistic's value *)
}.

(** A value a step hands back or logs: a scalar tensor, or [None]. *)
Inductive pyobj (R : Type) :=
| ObjNone
| ObjScalar (r : R).
Arguments ObjNone {R}.
Arguments ObjScalar {R} r.

Module Metric.
Section Metric.
Context {R : Type} `{Torchmetrics R}.

Record t := mk { kind : metric_kind; acc : mstate }.

Definition new (k : metric_kind) : t := mk k mempty.

(** [m.update(preds, target)]: accumulates, and returns [None]. *)
Definition update (m : t) (preds : list R) (target : list Z) : t * pyobj R :=
  (mk (kind m) (maccum (acc m) preds target), ObjNone).

(** [m(preds, target)]: accumulates, and returns the statistic computed
    on this batch alone. *)
Definition forward (m : t) (preds : list R) (target : list Z) : t * pyobj R :=
  (mk (kind m) (maccum (acc m) preds target),
   ObjScalar (mvalue (kind m) (maccum mempty preds target))).

(** [m.compute()]: the statistic over everything accumulated. *)
Definition compute (m : t) : R := mvalue (kind m) (acc m).

(** [m.reset()]. *)
Definition reset (m : t) : t := mk (kind m) mempty.
End Metric.
Arguments t R {_}.
End Metric.

(** *** Backbones, optimizer, scheduler *)

Inductive Backbone :=
| TimeSformer (img_size num_classes : nat) (num_frames : Z)
    (attention_type pretrained_model : string) (in_chans : nat)
| R2Plus1D_18 (fc_in_features fc_out_features : nat)
| VideoMAEForVideoClassification (checkpoint : string) (num_frames : Z)
    (qkv_bias : bool) (num_labels : nat) (ignore_mismatched_sizes : bool).

(** A rank-2 tensor (batch, classes). *)
Record Logits (R : Type) := mkLogits { ncols : nat; rows : list (list R) }.
Arguments mkLogits {R} ncols rows.
Arguments ncols {R} l.
Arguments rows {R} l.

(** What calling a backbone returns: a tensor, or the structured
    classifier output whose [logits] attribute holds the tensor. *)
Inductive ModelOutput (R : Type) :=
| OutTensor (t : Logits R)
| OutClassifier (logits : Logits R).
Arguments OutTensor {R} t.
Arguments OutClassifier {R} logits.

Inductive Optimizer (R : Type) :=
| Adam (lr weight_decay : R).
Arguments Adam {R} lr weight_decay.

Inductive Scheduler (R : Type) :=
| MultiStepLR (optimizer : Optimizer R) (milestones : list Z) (gamma : R).
Arguments MultiStepLR {R} optimizer milestones gamma.

(** The code the wrapper calls and does not define: the networks behind
    the backbones, the loss factory of [loss_helpers] and torchmetrics.
    Each call is taken to return. What these libraries raise on their own
    (a weights file that is missing, an argument torch refuses, a shape a
    network rejects) is outside the model, as it is for the constructors
    of [Backbone], [Optimizer] and [Scheduler]. *)
Class Collaborators (R : Type) := {
  run_backbone : Backbone -> Tensor5 R -> ModelOutput R;
  LossFunction : string -> R -> (list R -> list R -> R);
  collab_metrics :: Torchmetrics R
}.

(** ** The wrapper object *)

Section LitModel.
Context {R : Type} `{Scalar R} `{Collaborators R}.

Record LitModel := mkLitModel {
  model_name : string;
  learning_rate : R;
  weight_decay : R;
  model : Backbone;
  scheduler_name : string;
  scheduler_milestones : list Z;
  scheduler_gamma : R;
  criterion : list R -> list R -> R;
  train_precision : Metric.t R;
  train_accuracy : Metric.t R;
  train_recall : Metric.t R;
  train_f1 : Metric.t R;
  train_iou : Metric.t R;
  val_precision : Metric.t R;
  val_accuracy : Metric.t R;
  val_recall : Metric.t R;
  val_f1 : Metric.t R;
  val_iou : Metric.t R;
  use_keypoints : pyval
}.

(** The ten accumulator attributes. *)
Inductive metric_attr :=
| TrainPrecision | TrainAccuracy | TrainRecall | TrainF1 | TrainIou
| ValPrecision | ValAccuracy | ValRecall | ValF1 | ValIou.

#[global] Instance metric_attr_eq_dec : EqDecision metric_attr.
Proof. solve_decision. Defined.

Definition get_metric (a : metric_attr) (self : LitModel) : Metric.t R :=
  match a with
  | TrainPrecision => train_precision self
  | TrainAccuracy => train_accuracy self
  | TrainRecall => train_recall self
  | TrainF1 => train_f1 self
  | TrainIou => train_iou self
  | ValPrecision => val_precision self
  | ValAccuracy => val_accuracy self
  | ValRecall => val_recall self
  | ValF1 => val_f1 self
  | ValIou => val_iou self
  end.

Definition set_metric (a : metric_attr) (m : Metric.t R) (self : LitModel)
  : LitModel :=
  let '(mkLitModel mn lr wd md sn sm sg cr tp ta tr tf ti vp va vr vf vi uk) := self in
  match a with
  | TrainPrecision => mkLitModel mn lr wd md sn sm sg cr m ta tr tf ti vp va vr vf vi uk
  | TrainAccuracy => mkLitModel mn lr wd md sn sm sg cr tp m tr tf ti vp va vr vf vi uk
  | TrainRecall => mkLitModel mn lr wd md sn sm sg cr tp ta m tf ti vp va vr vf vi uk
  | TrainF1 => mkLitModel mn lr wd md sn sm sg cr tp ta tr m ti vp va vr vf vi uk
  | TrainIou => mkLitModel mn lr wd md sn sm sg cr tp ta tr tf m vp va vr vf vi uk
  | ValPrecision => mkLitModel mn lr wd md sn sm sg cr tp ta tr tf ti m va vr vf vi uk
  | ValAccuracy => mkLitModel mn lr wd md sn sm sg cr tp ta tr tf ti vp m vr vf vi uk
  | ValRecall => mkLitModel mn lr wd md sn sm sg cr tp ta tr tf ti vp va m vf vi uk
  | ValF1 => mkLitModel mn lr wd md sn sm sg cr tp ta tr tf ti vp va vr m vi uk
  | ValIou => mkLitModel mn lr wd md sn sm sg cr tp ta tr tf ti vp va vr vf m uk
  end.

(** *** Calls to collaborators, in the order they happen *)

Inductive event :=
| EvModel (x : Tensor5 R)                         (* [self.model(x)] *)
| EvCriterion (y_hat target : list R)             (* [self.criterion(..)] *)
| EvForward (a : metric_attr) (preds : list R) (target : list Z)
| EvUpdate (a : metric_attr) (preds : list R) (target : list Z)
| EvCompute (a : metric_attr)
| EvReset (a : metric_attr)
| EvLog (name : string) (value : pyobj R).        (* [self.log(..)] *)

(** *** The monad of the hooks: the object, the trace, exceptions *)

Definition world : Type := LitModel * list event.
Definition M (A : Type) : Type := world -> result A * world.

Definition ret {A} (a : A) : M A := fun w => (Ok a, w).

Definition bind {A B} (c : M A) (k : A -> M B) : M B :=
  fun w =>
    match c w with
    | (Ok a, w') => k a w'
    | (Raise e, w') => (Raise e, w')
    end.

Definition lift {A} (r : result A) : M A := fun w => (r, w).
Definition get_self : M LitModel := fun w => (Ok (fst w), w).
Definition emit (e : event) : M unit := fun w => (Ok tt, (fst w, snd w ++ [e])).
Definition put_metric (a : metric_attr) (m : Metric.t R) : M unit :=
  fun w => (Ok tt, (set_metric a m (fst w), snd w)).

Notation "x <- c ;; k" := (bind c (fun x => k))
  (at level 100, c at next level, right associativity).
Notation "c ;;; k" := (bind c (fun _ => k))
  (at level 100, right associativity).

Definition call_model (x : Tensor5 R) : M (ModelOutput R) :=
  self <- get_self ;;
  emit (EvModel x) ;;;
  ret (run_backbone (model self) x).

Definition call_criterion (y_hat target : list R) : M R :=
  self <- get_self ;;
  emit (EvCriterion y_hat target) ;;;
  ret (criterion self y_hat target).

Definition metric_forward (a : metric_attr) (preds : list R) (target : list Z)
  : M (pyobj R) :=
  self <- get_self ;;
  let '(m, v) := Metric.forward (get_metric a self) preds target in
  emit (EvForward a preds target) ;;;
  put_metric a m ;;;
  ret v.

Definition metric_update (a : metric_attr) (preds : list R) (target : list Z)
  : M (pyobj R) :=
  self <- get_self ;;
  let '(m, v) := Metric.update (get_metric a self) preds target in
  emit (EvUpdate a preds target) ;;;
  put_metric a m ;;;
  ret v.

Definition metric_compute (a : metric_attr) : M R :=
  self <- get_self ;;
  emit (EvCompute a) ;;;
  ret (Metric.compute (get_metric a self)).

Definition metric_reset (a : metric_attr) : M unit :=
  self <- get_self ;;
  emit (EvReset a) ;;;
  put_metric a (Metric.reset (get_metric a self)).

Definition log (name : string) (value : pyobj R) : M unit :=
  emit (EvLog name value).

(** ** Construction *)

(** The first [if]/[elif] chain of [configure_model]: the local
    [in_chans] afterwards ([None]: no branch assigned it). *)
Definition in_chans_local (use_keypoints : pyval) : option nat :=
  if py_eq use_keypoints (PyBool false) then Some 3
  else if py_eq use_keypoints (PyBool true) then Some 4
  else if py_eq use_keypoints (PyStr "only") then Some 1
  else None.

(** The second chain: the local [model] afterwards. The first branch
    reads [in_chans]. *)
Definition model_local (model_name pretrained_model : string)
    (num_frames : Z) (in_chans : option nat) : result (option Backbone) :=
  if String.eqb model_name "timesformer" then
    rbind (read_local "in_chans" in_chans) (fun in_chans =>
    Ok (Some (TimeSformer 224 1 num_frames "divided_space_time"
                pretrained_model in_chans)))
  else if String.eqb model_name "r2plus1" then
    Ok (Some (R2Plus1D_18 512 1))
  else if String.eqb model_name "videomae" then
    Ok (Some (VideoMAEForVideoClassification
                "MCG-NJU/videomae-base-finetuned-ssv2" num_frames false 1 true))
  else Ok None.

Definition configure_model (model_name pretrained_model : string)
    (use_keypoints : pyval) (num_frames : Z) : result Backbone :=
  let in_chans := in_chans_local use_keypoints in
  rbind (model_local model_name pretrained_model num_frames in_chans) (fun model =>
  read_local "model" model).

(** The chain of [configure_scheduler]: the local [scheduler] afterwards. *)
Definition scheduler_local (optimizer : Optimizer R) (scheduler_name : string)
    (scheduler_milstones : list Z) (scheduler_gamma : R) : option (Scheduler R) :=
  if String.eqb scheduler_name "multi-step-lr" then
    Some (MultiStepLR optimizer scheduler_milstones scheduler_gamma)
  else None.

Definition configure_scheduler (optimizer : Optimizer R) (scheduler_name : string)
    (scheduler_milstones : list Z) (scheduler_gamma : R) : result (Scheduler R) :=
  read_local "scheduler"
    (scheduler_local optimizer scheduler_name scheduler_milstones scheduler_gamma).

Record LrSchedulerConfig := mkLrSchedulerConfig {
  scheduler : Scheduler R;
  interval : string;
  frequency : nat
}.

Record OptimizersConfig := mkOptimizersConfig {
  optimizer : Optimizer R;
  lr_scheduler : LrSchedulerConfig
}.

Definition configure_optimizers (self : LitModel) : result OptimizersConfig :=
  let optimizer := Adam (learning_rate self) (weight_decay self) in
  rbind (configure_scheduler optimizer (scheduler_name self)
           (scheduler_milestones self) (scheduler_gamma self)) (fun scheduler =>
  Ok (mkOptimizersConfig optimizer (mkLrSchedulerConfig scheduler "epoch" 1))).

(** [LitModel.__init__]. *)
Definition init (model_name pretrained_model : string) (num_frames : Z)
    (learning_rate weight_decay : R) (loss_function_name : string)
    (focal_gamma : R) (scheduler_name : string) (scheduler_milestones : list Z)
    (scheduler_gamma : R) (use_keypoints : pyval) : result LitModel :=
  rbind (configure_model model_name pretrained_model use_keypoints num_frames)
    (fun model =>
  Ok (mkLitModel model_name learning_rate weight_decay model
        scheduler_name scheduler_milestones scheduler_gamma
        (LossFunction loss_function_name focal_gamma)
        (Metric.new BinaryPrecision) (Metric.new BinaryAccuracy)
        (Metric.new BinaryRecall) (Metric.new BinaryF1Score)
        (Metric.new BinaryJaccardIndex)
        (Metric.new BinaryPrecision) (Metric.new BinaryAccuracy)
        (Metric.new BinaryRecall) (Metric.new BinaryF1Score)
        (Metric.new BinaryJaccardIndex)
        use_keypoints)).

(** ** Input adapters *)

(** The effect of [x[:3] = x[:3] - 0.5] on the contents of [x]. *)
Definition sub_half_slice (t : Tensor5 R) : Tensor5 R :=
  setitem_slice 3 t (pointwise (fun r => sub r half) (getitem_slice 3 t)).

(** The contents [_normalize] leaves in its argument. *)
Definition normalized (self : LitModel) (t : Tensor5 R) : Tensor5 R :=
  if py_in (use_keypoints self) [PyInt 0; PyInt 1] then sub_half_slice t else t.

(** Tensor objects live in a store; a Python variable holds a reference. *)
Definition loc : Type := nat.

(** [LitModel._normalize]: the slice assignment writes into the object
    [x] refers to, and [x] itself is returned. *)
Definition _normalize (self : LitModel) (x : loc) (st : gmap nat (Tensor5 R))
  : gmap nat (Tensor5 R) * loc :=
  if py_in (use_keypoints self) [PyInt 0; PyInt 1] then
    match st !! x with
    | Some t => (<[x := sub_half_slice t]> st, x)
    | None => (st, x)
    end
  else (st, x).

(** [LitModel._reshape]. *)
Definition _reshape (self : LitModel) (x : Tensor5 R) : Tensor5 R :=
  if String.eqb (model_name self) "timesformer" then
    rearrange x bthwc_to_bcthw
  else if String.eqb (model_name self) "videomae" then
    rearrange x bthwc_to_btchw
  else x.

(** [self.normalize = self._normalize] and [self.reshape = self._reshape]:
    the attributes are the bound methods. *)
Definition normalize := _normalize.
Definition reshape := _reshape.

(** ** Forward pass *)

(** [o.logits]. *)
Definition getattr_logits (o : ModelOutput R) : result (ModelOutput R) :=
  match o with
  | OutClassifier l => Ok (OutTensor l)
  | OutTensor _ => Raise (AttributeError "logits")
  end.

(** [o[:,0]]. *)
Definition getitem_col0 (o : ModelOutput R) : result (list R) :=
  match o with
  | OutTensor l =>
      if ncols l =? 0 then Raise IndexError
      else Ok (map (fun r => nth 0 r inhabitant) (rows l))
  | OutClassifier _ => Raise TypeError
  end.

(** [LitModel.forward]. *)
Definition forward (x : Tensor5 R) : M (ModelOutput R) :=
  self <- get_self ;;
  logits <- call_model x ;;
  if String.eqb (model_name self) "videomae" then lift (getattr_logits logits)
  else ret logits.

(** ** Steps and epoch ends *)

(** [LitModel.training_step]. *)
Definition training_step (batch : Tensor5 R * list Z) (batch_idx : nat) : M R :=
  let '(x, y) := batch in
  self <- get_self ;;
  let x := reshape self x in
  out <- forward x ;;
  y_hat <- lift (getitem_col0 out) ;;
  loss <- call_criterion y_hat (map of_label y) ;;
  let probs := map sigmoid y_hat in
  train_acc <- metric_forward TrainAccuracy probs y ;;
  train_prec <- metric_forward TrainPrecision probs y ;;
  train_rec <- metric_forward TrainRecall probs y ;;
  train_f1 <- metric_forward TrainF1 probs y ;;
  train_iou <- metric_forward TrainIou probs y ;;
  log "train_loss_step" (ObjScalar loss) ;;;
  log "train_acc_step" train_acc ;;;
  log "train_prec_step" train_prec ;;;
  log "train_rec_step" train_rec ;;;
  log "train_f1_step" train_f1 ;;;
  log "train_iou_step" train_iou ;;;
  ret loss.

(** [LitModel.training_epoch_end]. *)
Definition training_epoch_end : M unit :=
  metric_reset TrainAccuracy ;;;
  metric_reset TrainPrecision ;;;
  metric_reset TrainRecall ;;;
  metric_reset TrainF1 ;;;
  metric_reset TrainIou.

(** [LitModel.validation_step]. *)
Definition validation_step (batch : Tensor5 R * list Z) (batch_idx : nat)
  : M (gmap string (pyobj R)) :=
  let '(x, y) := batch in
  self <- get_self ;;
  let x := reshape self x in
  out <- forward x ;;
  y_hat <- lift (getitem_col0 out) ;;
  loss <- call_criterion y_hat (map of_label y) ;;
  log "val_loss" (ObjScalar loss) ;;;
  let probs := map sigmoid y_hat in
  val_acc <- metric_update ValAccuracy probs y ;;
  val_prec <- metric_update ValPrecision probs y ;;
  val_rec <- metric_update ValRecall probs y ;;
  val_iou <- metric_update ValIou probs y ;;
  val_f1 <- metric_update ValF1 probs y ;;
  ret (<["loss" := ObjScalar loss]> (<["acc" := val_acc]> (<["rec" := val_rec]>
        (<["prec" := val_prec]> (<["f1" := val_f1]> (<["iou" := val_iou]> ∅)))))).

(** [LitModel.validation_epoch_end]. *)
Definition validation_epoch_end : M unit :=
  acc <- metric_compute ValAccuracy ;;
  log "val_acc" (ObjScalar acc) ;;;
  val_prec <- metric_compute ValPrecision ;;
  log "val_prec" (ObjScalar val_prec) ;;;
  val_rec <- metric_compute ValRecall ;;
  log "val_rec" (ObjScalar val_rec) ;;;
  val_f1 <- metric_compute ValF1 ;;
  log "val_f1" (ObjScalar val_f1) ;;;
  val_iou <- metric_compute ValIou ;;
  log "val_iou" (ObjScalar val_iou) ;;;
  metric_reset ValAccuracy ;;;
  metric_reset ValPrecision ;;;
  metric_reset ValRecall ;;;
  metric_reset ValF1 ;;;
  metric_reset ValIou.

End LitModel.
Arguments event R : clear implicits.

(** ** Observing traces *)

Section Traces.
Context {R : Type} `{Scalar R} `{Collaborators R}.

(** The tensors the backbone was called on. *)
Definition model_inputs (tr : list (event R)) : list (Tensor5 R) :=
  omap (fun e => match e with EvModel x => Some x | _ => None end) tr.

(** The (logits, target) pairs the criterion was called on. *)
Definition criterion_calls (tr : list (event R)) : list (list R * list R) :=
  omap (fun e => match e with EvCriterion p t => Some (p, t) | _ => None end) tr.

(** The (probabilities, labels) pairs the accumulators were fed. *)
Definition metric_calls (tr : list (event R)) : list (list R * list Z) :=
  omap (fun e => match e with
                 | EvForward _ p t | EvUpdate _ p t => Some (p, t)
                 | _ => None
                 end) tr.

(** An accumulated value is read or emitted. *)
Definition is_read (e : event R) : bool :=
  match e with
  | EvCompute _ | EvLog _ _ => true
  | _ => false
  end.

Definition is_reset (e : event R) : bool :=
  match e with
  | EvReset _ => true
  | _ => false
  end.

Definition is_train (a : metric_attr) : bool :=
  match a with
  | TrainPrecision | TrainAccuracy | TrainRecall | TrainF1 | TrainIou => true
  | _ => false
  end.

(** What [self(x)[:,0]] evaluates to on the object [self]. *)
Definition logits_of (self : LitModel) (x : Tensor5 R) : result (list R) :=
  rbind (if String.eqb (model_name self) "videomae"
         then getattr_logits (run_backbone (model self) x)
         else Ok (run_backbone (model self) x))
        getitem_col0.

(** The object after the accumulators [attrs] have each seen the batch
    (probabilities, labels). *)
Definition fed (attrs : list metric_attr) (preds : list R) (target : list Z)
    (self : LitModel) : LitModel :=
  fold_left
    (fun s a => set_metric a (fst (Metric.update (get_metric a s) preds target)) s)
    attrs self.

(** The object after the accumulators [attrs] have each been reset. *)
Definition cleared (attrs : list metric_attr) (self : LitModel) : LitModel :=
  fold_left (fun s a => set_metric a (Metric.reset (get_metric a s)) s) attrs self.

(** The value [m(preds, target)] returns: the statistic of this batch. *)
Definition batch_value (a : metric_attr) (self : LitModel) (preds : list R)
    (target : list Z) : pyobj R :=
  snd (Metric.forward (get_metric a self) preds target).

(** In [tr], no accumulated value is read or emitted after a reset. *)
Definition reads_before_resets (tr : list (event R)) : Prop :=
  forall i j e e', tr !! i = Some e -> tr !! j = Some e' ->
                   is_reset e = true -> is_read e' = true -> j < i.

(** The accumulators in the order [training_step] calls them and
    [training_epoch_end] resets them. *)
Definition train_attrs : list metric_attr :=
  [TrainAccuracy; TrainPrecision; TrainRecall; TrainF1; TrainIou].

(** ... in the order [validation_step] updates them. *)
Definition val_step_attrs : list metric_attr :=
  [ValAccuracy; ValPrecision; ValRecall; ValIou; ValF1].

(** ... in the order [validation_epoch_end] reads and resets them. *)
Definition val_attrs : list metric_attr :=
  [ValAccuracy; ValPrecision; ValRecall; ValF1; ValIou].

(** The (name, value) pairs handed to [self.log]. *)
Definition logged (tr : list (event R)) : list (string * pyobj R) :=
  omap (fun e => match e with EvLog n v => Some (n, v) | _ => None end) tr.

(** What the collaborators received during a step on the batch [(x, y)]:
    the backbone the reshaped video once, the criterion the logits of
    that call against the float labels, the accumulators the sigmoid of
    those logits against the labels. *)
Definition only_reshaped (self : LitModel) (x : Tensor5 R) (y : list Z)
    (new : list (event R)) : Prop :=
  model_inputs new = [_reshape self x] /\
  Forall (fun c => logits_of self (_reshape self x) = Ok (fst c)
                   /\ snd c = map of_label y) (criterion_calls new) /\
  Forall (fun c => (exists y_hat, logits_of self (_reshape self x) = Ok y_hat
                                  /\ fst c = map sigmoid y_hat)
                   /\ snd c = y) (metric_calls new).

(** What was selected at construction. *)
Definition selection (self : LitModel) : string * pyval * Backbone :=
  (model_name self, use_keypoints self, model self).

(** The hooks the training driver invokes. *)
Inductive hook :=
| TrainingStep (batch : Tensor5 R * list Z) (batch_idx : nat)
| ValidationStep (batch : Tensor5 R * list Z) (batch_idx : nat)
| TrainingEpochEnd
| ValidationEpochEnd.

Definition run_hook (w : world) (h : hook) : world :=
  match h with
  | TrainingStep b i => snd (training_step b i w)
  | ValidationStep b i => snd (validation_step b i w)
  | TrainingEpochEnd => snd (training_epoch_end w)
  | ValidationEpochEnd => snd (validation_epoch_end w)
  end.

(** The object and trace after the driver has invoked [hs] in order. *)
Definition run_hooks (hs : list hook) (w : world) : world :=
  fold_left run_hook hs w.

(** The three chains in the configuration code that assign a local only
    in their branches. *)
Inductive dispatch :=
| KeypointDispatch
| BackboneDispatch
| SchedulerDispatch.

(** A chain is unguarded when some argument leaves its local unassigned. *)
Definition unguarded (d : dispatch) : Prop :=
  match d with
  | KeypointDispatch => exists v, in_chans_local v = None
  | BackboneDispatch => exists tag p n ic, model_local tag p n ic = Ok None
  | SchedulerDispatch =>
      exists (o : Optimizer R) name ms g, scheduler_local o name ms g = None
  end.

End Traces.

(** ** Observing the object over its life *)

Section Lifetime.
Context {R : Type} `{Scalar R} `{Collaborators R}.

(** The attributes [configure_optimizers] reads. *)
Definition hyperparameters (self : LitModel) : R * R * string * list Z * R :=
  (learning_rate self, weight_decay self, scheduler_name self,
   scheduler_milestones self, scheduler_gamma self).


(** The hooks of the training phase. *)
Definition is_train_hook (h : @hook R) : bool :=
  match h with
  | TrainingStep _ _ | TrainingEpochEnd => true
  | ValidationStep _ _ | ValidationEpochEnd => false
  end.



(** The torchmetrics class [__init__] puts behind each attribute. *)
Definition attr_kind (a : metric_attr) : metric_kind :=
  match a with
  | TrainPrecision | ValPrecision => BinaryPrecision
  | TrainAccuracy | ValAccuracy => BinaryAccuracy
  | TrainRecall | ValRecall => BinaryRecall
  | TrainF1 | ValF1 => BinaryF1Score
  | TrainIou | ValIou => BinaryJaccardIndex
  end.

(** The backbone is an instance of the class the tag names. *)
Definition backbone_of_tag (tag : string) (m : Backbone) : bool :=
  match m with
  | TimeSformer _ _ _ _ _ _ => String.eqb tag "timesformer"
  | R2Plus1D_18 _ _ => String.eqb tag "r2plus1"
  | VideoMAEForVideoClassification _ _ _ _ _ => String.eqb tag "videomae"
  end.

(** [after] differs from [before] at most in what its accumulators have
    seen: same hyperparameters, same loss, accumulators of the same class. *)
Definition same_configuration (before after : LitModel) : Prop :=
  hyperparameters after = hyperparameters before /\
  criterion after = criterion before /\
  (forall a, Metric.kind (get_metric a after) = Metric.kind (get_metric a before)).


End Lifetime.

(** ** A small instance to run the wrapper on *)

Module Toy.

(** A rational stand-in for the sigmoid: clip(q/4 + 1/2, 0, 1). *)
Definition hard_sigmoid (q : Q) : Q :=
  let v := Qred (q / 4 + (1 # 2)) in
  if Qle_bool v 0 then 0 else if Qle_bool 1 v then 1 else v.

#[global] Instance Q_scalar : Scalar Q := {|
  zero := 0%Q;
  half := (1 # 2)%Q;
  sub := fun a b => Qred (a - b);
  sigmoid := hard_sigmoid;
  of_label := inject_Z
|}.

(** Confusion counts: true/false positives, true/false negatives. *)
Record counts := mkCounts { tp : nat; fp : nat; tn : nat; fn : nat }.

Definition count_one (c : counts) (p : Q) (y : Z) : counts :=
  let pred := negb (Qle_bool p (1 # 2)) in
  let pos := Z.eqb y 1 in
  match pred, pos with
  | true, true => mkCounts (S (tp c)) (fp c) (tn c) (fn c)
  | true, false => mkCounts (tp c) (S (fp c)) (tn c) (fn c)
  | false, false => mkCounts (tp c) (fp c) (S (tn c)) (fn c)
  | false, true => mkCounts (tp c) (fp c) (tn c) (S (fn c))
  end.

Fixpoint count_batch (c : counts) (ps : list Q) (ys : list Z) : counts :=
  match ps, ys with
  | p :: ps', y :: ys' => count_batch (count_one c p y) ps' ys'
  | _, _ => c
  end.

Definition ratio (a b : nat) : Q :=
  match b with
  | O => 0%Q
  | S _ => Qred (Z.of_nat a # Pos.of_nat b)
  end.

Definition value (k : metric_kind) (c : counts) : Q :=
  match k with
  | BinaryPrecision => ratio (tp c) (tp c + fp c)
  | BinaryAccuracy => ratio (tp c + tn c) (tp c + fp c + tn c + fn c)
  | BinaryRecall => ratio (tp c) (tp c + fn c)
  | BinaryF1Score => ratio (2 * tp c) (2 * tp c + fp c + fn c)
  | BinaryJaccardIndex => ratio (tp c) (tp c + fp c + fn c)
  end.

#[global] Instance confusion_metrics : Torchmetrics Q := {|
  mstate := counts;
  mempty := mkCounts 0 0 0 0;
  maccum := count_batch;
  mvalue := value
|}.

(** A one-logit network: the logit of a sample is its first element. *)
Definition first_elements (x : Tensor5 Q) : Logits Q :=
  let '(n0, _, _, _, _) := shape x in
  mkLogits 1 (tabulate n0 (fun b => [get5 x b 0 0 0 0])).

Definition toy_backbone (m : Backbone) (x : Tensor5 Q) : ModelOutput Q :=
  match m with
  | VideoMAEForVideoClassification _ _ _ _ _ => OutClassifier (first_elements x)
  | _ => OutTensor (first_elements x)
  end.

(** Summed absolute error, whatever the name asked for. *)
Fixpoint l1 (y_hat target : list Q) : Q :=
  match y_hat, target with
  | a :: y_hat', b :: target' => Qred (Qabs (a - b) + l1 y_hat' target')
  | _, _ => 0%Q
  end.

#[global] Instance toy_collaborators : Collaborators Q := {|
  run_backbone := toy_backbone;
  LossFunction := fun _ _ => l1;
  collab_metrics := confusion_metrics
|}.

Definition ones (n0 n1 n2 n3 n4 : nat) : Tensor5 Q :=
  mkTensor5 (n0, n1, n2, n3, n4) (build5 (n0, n1, n2, n3, n4) (fun _ _ _ _ _ => 1%Q)).

(** A (2,1,1,2,3) clip whose elements are all different. *)
Definition clip : Tensor5 Q :=
  mkTensor5 (2, 1, 1, 2, 3)
    [ [[[ [1; 2; 3]; [4; 5; 6] ]]]; [[[ [7; 8; 9]; [10; 11; 12] ]]] ]%Q.

(** The object [LitModel(tag, "w.pth", 16, 1e-4, 0, "bce", 2,
    "multi-step-lr", [5, 10], 0.1, use_keypoints)] builds around [m]. *)
Definition lit (tag : string) (m : Backbone) (use_keypoints : pyval) : LitModel :=
  mkLitModel tag (1 # 10000)%Q 0%Q m "multi-step-lr" [5; 10]%Z (1 # 10)%Q l1
    (Metric.new BinaryPrecision) (Metric.new BinaryAccuracy)
    (Metric.new BinaryRecall) (Metric.new BinaryF1Score)
    (Metric.new BinaryJaccardIndex)
    (Metric.new BinaryPrecision) (Metric.new BinaryAccuracy)
    (Metric.new BinaryRecall) (Metric.new BinaryF1Score)
    (Metric.new BinaryJaccardIndex)
    use_keypoints.

Definition construct (tag : string) (use_keypoints : pyval) : result LitModel :=
  init tag "w.pth" 16 (1 # 10000)%Q 0%Q "bce" 2%Q "multi-step-lr"
    [5; 10]%Z (1 # 10)%Q use_keypoints.

Definition r2plus1_rgb : LitModel := lit "r2plus1" (R2Plus1D_18 512 1) (PyInt 0).

Definition r2plus1_rgbk : LitModel := lit "r2plus1" (R2Plus1D_18 512 1) (PyInt 1).

Definition timesformer_rgb : LitModel :=
  lit "timesformer"
    (TimeSformer 224 1 16 "divided_space_time" "w.pth" 3) (PyBool false).

Definition videomae_rgb : LitModel :=
  lit "videomae"
    (VideoMAEForVideoClassification
       "MCG-NJU/videomae-base-finetuned-ssv2" 16 false 1 true) (PyBool false).

(** An r2plus1 object asked for a cosine schedule. *)
Definition r2plus1_cosine : LitModel :=
  mkLitModel "r2plus1" (1 # 10000)%Q 0%Q (R2Plus1D_18 512 1) "cosine"
    [5; 10]%Z (1 # 10)%Q l1
    (Metric.new BinaryPrecision) (Metric.new BinaryAccuracy)
    (Metric.new BinaryRecall) (Metric.new BinaryF1Score)
    (Metric.new BinaryJaccardIndex)
    (Metric.new BinaryPrecision) (Metric.new BinaryAccuracy)
    (Metric.new BinaryRecall) (Metric.new BinaryF1Score)
    (Metric.new BinaryJaccardIndex)
    (PyBool false).

(** A network whose head has no output class: zero logit columns. *)
Definition headless_backbone (m : Backbone) (x : Tensor5 Q) : ModelOutput Q :=
  let '(n0, _, _, _, _) := shape x in
  OutTensor (mkLogits 0 (tabulate n0 (fun _ => []))).

Definition headless_collaborators : Collaborators Q := {|
  run_backbone := headless_backbone;
  LossFunction := fun _ _ => l1;
  collab_metrics := confusion_metrics
|}.

(** The r2plus1 object over the headless network. *)
Definition r2plus1_headless : @LitModel Q headless_collaborators :=
  @mkLitModel Q headless_collaborators "r2plus1" (1 # 10000)%Q 0%Q
    (R2Plus1D_18 512 1) "multi-step-lr" [5; 10]%Z (1 # 10)%Q l1
    (Metric.new BinaryPrecision) (Metric.new BinaryAccuracy)
    (Metric.new BinaryRecall) (Metric.new BinaryF1Score)
    (Metric.new BinaryJaccardIndex)
    (Metric.new BinaryPrecision) (Metric.new BinaryAccuracy)
    (Metric.new BinaryRecall) (Metric.new BinaryF1Score)
    (Metric.new BinaryJaccardIndex)
    (PyInt 0).

End Toy.

(** * Properties *)

(** ** Tabulated lists *)

Lemma length_tabulate {X} (n : nat) (f : nat -> X) : length (tabulate n f) = n.
Proof. unfold tabulate. now rewrite length_map, length_seq. Qed.

Lemma nth_tabulate {X} (n : nat) (f : nat -> X) (i : nat) (d : X) :
  i < n -> nth i (tabulate n f) d = f i.
Proof.
  intros Hi. unfold tabulate.
  rewrite (nth_indep _ d (f 0)) by now rewrite length_map, length_seq.
  rewrite map_nth, seq_nth by exact Hi. reflexivity.
Qed.

Lemma tabulate_ext {X} (n : nat) (f g : nat -> X) :
  (forall i, i < n -> f i = g i) -> tabulate n f = tabulate n g.
Proof.
  intros Hfg. unfold tabulate. apply map_ext_in.
  intros i Hi. apply in_seq in Hi. apply Hfg. lia.
Qed.

Lemma tabulate_nth {X} (l : list X) (d : X) :
  tabulate (length l) (fun i => nth i l d) = l.
Proof.
  apply (nth_ext _ _ d d).
  - apply length_tabulate.
  - intros i Hi. rewrite length_tabulate in Hi.
    exact (nth_tabulate _ (fun j => nth j l d) i d Hi).
Qed.

Lemma rect_nth {X} (n : nat) (P : X -> Prop) (l : list X) (d : X) (i : nat) :
  rect n P l -> i < n -> P (nth i l d).
Proof.
  intros [Hlen HP] Hi. rewrite List.Forall_forall in HP.
  apply HP, nth_In. lia.
Qed.

Lemma tabulate_rect {X} (n : nat) (P : X -> Prop) (l : list X) (d : X)
    (F : nat -> X) :
  rect n P l ->
  (forall i, i < n -> P (nth i l d) -> F i = nth i l d) ->
  tabulate n F = l.
Proof.
  intros Hr HF. destruct (Hr) as [Hlen _].
  transitivity (tabulate (length l) (fun i => nth i l d));
    [|apply tabulate_nth]. rewrite Hlen.
  apply tabulate_ext. intros i Hi. apply HF; [exact Hi|].
  now apply (rect_nth n).
Qed.

Lemma rect_tabulate {X} (n : nat) (P : X -> Prop) (F : nat -> X) :
  (forall i, i < n -> P (F i)) -> rect n P (tabulate n F).
Proof.
  intros HP. split; [apply length_tabulate|].
  unfold tabulate. rewrite List.Forall_forall. intros y Hy.
  apply in_map_iff in Hy. destruct Hy as (i & <- & Hi).
  apply in_seq in Hi. apply HP. lia.
Qed.

(** ** Tensors *)

Section TensorFacts.
Context {R : Type} `{Inhabited R}.

Lemma get5_build5 (s' : shape5) (n0 n1 n2 n3 n4 : nat)
    (f : nat -> nat -> nat -> nat -> nat -> R) (i0 i1 i2 i3 i4 : nat) :
  i0 < n0 -> i1 < n1 -> i2 < n2 -> i3 < n3 -> i4 < n4 ->
  get5 (mkTensor5 s' (build5 (n0, n1, n2, n3, n4) f)) i0 i1 i2 i3 i4
  = f i0 i1 i2 i3 i4.
Proof.
  intros H0 H1 H2 H3 H4. unfold get5, build5. cbn [data].
  now rewrite !nth_tabulate.
Qed.

Lemma build5_ext (n0 n1 n2 n3 n4 : nat)
    (f g : nat -> nat -> nat -> nat -> nat -> R) :
  (forall i0 i1 i2 i3 i4,
      i0 < n0 -> i1 < n1 -> i2 < n2 -> i3 < n3 -> i4 < n4 ->
      f i0 i1 i2 i3 i4 = g i0 i1 i2 i3 i4) ->
  build5 (n0, n1, n2, n3, n4) f = build5 (n0, n1, n2, n3, n4) g.
Proof.
  intros Hfg. unfold build5.
  apply tabulate_ext; intros i0 H0. apply tabulate_ext; intros i1 H1.
  apply tabulate_ext; intros i2 H2. apply tabulate_ext; intros i3 H3.
  apply tabulate_ext; intros i4 H4. now apply Hfg.
Qed.

Lemma build5_get5 (x : Tensor5 R) :
  wf5 x -> build5 (shape x) (get5 x) = data x.
Proof.
  unfold wf5, build5, get5.
  destruct (shape x) as [[[[n0 n1] n2] n3] n4]. intros Hx.
  eapply (tabulate_rect _ _ _ []); [exact Hx|]. intros i0 _ Hx0.
  eapply (tabulate_rect _ _ _ []); [exact Hx0|]. intros i1 _ Hx1.
  eapply (tabulate_rect _ _ _ []); [exact Hx1|]. intros i2 _ Hx2.
  eapply (tabulate_rect _ _ _ []); [exact Hx2|]. intros i3 _ Hx3.
  rewrite <- Hx3. apply tabulate_nth.
Qed.

Lemma wf5_build5 (n0 n1 n2 n3 n4 : nat)
    (f : nat -> nat -> nat -> nat -> nat -> R) :
  wf5 (mkTensor5 (n0, n1, n2, n3, n4) (build5 (n0, n1, n2, n3, n4) f)).
Proof.
  unfold wf5, build5. cbn [shape data].
  apply rect_tabulate; intros i0 _. apply rect_tabulate; intros i1 _.
  apply rect_tabulate; intros i2 _. apply rect_tabulate; intros i3 _.
  apply length_tabulate.
Qed.

Lemma tensor5_eq (x : Tensor5 R) (s : shape5) (d : list (list (list (list (list R))))) :
  shape x = s -> data x = d -> mkTensor5 s d = x.
Proof. destruct x. cbn. now intros -> ->. Qed.

(** Each pattern moves elements between permuted indices, produces a
    well-formed tensor, and is undone by its inverse. *)
Lemma rearrange_inverse (x : Tensor5 R) (p : pattern) :
  wf5 x -> rearrange (rearrange x p) (inverse p) = x.
Proof.
  intros Hx. pose proof (build5_get5 x Hx) as Hd.
  unfold rearrange at 2. destruct (shape x) as [[[[n0 n1] n2] n3] n4] eqn:Hs.
  destruct p; unfold rearrange; cbn [shape inverse];
    apply tensor5_eq; try exact Hs;
    rewrite <- Hd; symmetry; apply build5_ext; intros;
    now rewrite get5_build5 by assumption.
Qed.

Lemma rearrange_wf (x : Tensor5 R) (p : pattern) : wf5 (rearrange x p).
Proof.
  unfold rearrange. destruct (shape x) as [[[[n0 n1] n2] n3] n4].
  destruct p; apply wf5_build5.
Qed.

End TensorFacts.

(** ** Input adapters *)

Section Adapters.
Context {R : Type} {SR : Scalar R} {CR : Collaborators R}.

Lemma reshape_timesformer (self : LitModel) (x : Tensor5 R) :
  model_name self = "timesformer" -> _reshape self x = rearrange x bthwc_to_bcthw.
Proof. intros Hn. unfold _reshape. now rewrite Hn. Qed.

Lemma reshape_videomae (self : LitModel) (x : Tensor5 R) :
  model_name self = "videomae" -> _reshape self x = rearrange x bthwc_to_btchw.
Proof. intros Hn. unfold _reshape. now rewrite Hn. Qed.

Lemma reshape_other (self : LitModel) (x : Tensor5 R) :
  model_name self <> "timesformer" -> model_name self <> "videomae" ->
  _reshape self x = x.
Proof.
  intros Ht Hv. unfold _reshape.
  apply String.eqb_neq in Ht, Hv. now rewrite Ht, Hv.
Qed.

(** C7. On a tensor of shape (B,T,H,W,C), [_reshape] only permutes axes:
    with "timesformer" the result has shape (B,C,T,H,W) and its element
    at (b,c,t,h,w) is the input's element at (b,t,h,w,c); with "videomae"
    the result has shape (B,T,C,H,W) and its element at (b,t,c,h,w) is
    the input's at (b,t,h,w,c); with any other name the tensor is
    returned as it is. In both permuting cases, rearranging the result
    with the inverse pattern gives back the input tensor itself. *)
Theorem reshape_axis_permutation (self : LitModel) (x : Tensor5 R)
    (B T H W C : nat) (Hshape : shape x = (B, T, H, W, C)) (Hwf : wf5 x) :
  (model_name self = "timesformer" ->
     shape (_reshape self x) = (B, C, T, H, W) /\
     wf5 (_reshape self x) /\
     (forall b c t h w, b < B -> c < C -> t < T -> h < H -> w < W ->
        get5 (_reshape self x) b c t h w = get5 x b t h w c) /\
     rearrange (_reshape self x) bcthw_to_bthwc = x) /\
  (model_name self = "videomae" ->
     shape (_reshape self x) = (B, T, C, H, W) /\
     wf5 (_reshape self x) /\
     (forall b t c h w, b < B -> t < T -> c < C -> h < H -> w < W ->
        get5 (_reshape self x) b t c h w = get5 x b t h w c) /\
     rearrange (_reshape self x) btchw_to_bthwc = x) /\
  (model_name self <> "timesformer" -> model_name self <> "videomae" ->
     _reshape self x = x).
Proof.
  split; [|split].
  - intros Hn. rewrite (reshape_timesformer _ _ Hn).
    split; [|split; [|split]].
    + unfold rearrange. now rewrite Hshape.
    + apply rearrange_wf.
    + intros b c t h w Hb Hc Ht Hh Hw. unfold rearrange. rewrite Hshape.
      now rewrite get5_build5.
    + exact (rearrange_inverse x bthwc_to_bcthw Hwf).
  - intros Hn. rewrite (reshape_videomae _ _ Hn).
    split; [|split; [|split]].
    + unfold rearrange. now rewrite Hshape.
    + apply rearrange_wf.
    + intros b t c h w Hb Ht Hc Hh Hw. unfold rearrange. rewrite Hshape.
      now rewrite get5_build5.
    + exact (rearrange_inverse x bthwc_to_btchw Hwf).
  - apply reshape_other.
Qed.

(** *** Normalisation *)

(** The guard [use_keypoints in [0, 1]] holds exactly for the values
    [configure_model] treats as disabled ([== False]) or enabled
    ([== True]). *)
Lemma normalize_guard (v : pyval) :
  py_in v [PyInt 0; PyInt 1]
  = py_eq v (PyBool false) || py_eq v (PyBool true).
Proof.
  destruct v as [|[]|z|s]; cbn; try reflexivity.
  now rewrite orb_false_r.
Qed.

Lemma normalized_only (self : LitModel) (t : Tensor5 R) :
  use_keypoints self = PyStr "only" -> normalized self t = t.
Proof. intros Hk. unfold normalized. now rewrite Hk. Qed.

(** [x[:3] = x[:3] - 0.5] reaches the entries whose index on axis 0 is
    below 3, whatever their index on the last axis. *)
Lemma sub_half_slice_get (t : Tensor5 R) (n0 n1 n2 n3 n4 i0 i1 i2 i3 i4 : nat) :
  shape t = (n0, n1, n2, n3, n4) -> wf5 t ->
  i0 < n0 -> i1 < n1 -> i2 < n2 -> i3 < n3 -> i4 < n4 ->
  get5 (sub_half_slice t) i0 i1 i2 i3 i4
  = if i0 <? 3 then sub (get5 t i0 i1 i2 i3 i4) half else get5 t i0 i1 i2 i3 i4.
Proof.
  intros Hs Hwf H0 H1 H2 H3 H4.
  unfold wf5 in Hwf. rewrite Hs in Hwf.
  pose proof (rect_nth _ _ _ [] i0 Hwf H0) as Hw0.
  pose proof (rect_nth _ _ _ [] i1 Hw0 H1) as Hw1.
  pose proof (rect_nth _ _ _ [] i2 Hw1 H2) as Hw2.
  pose proof (rect_nth _ _ _ [] i3 Hw2 H3) as Hw3. cbn beta in Hw3.
  destruct Hwf as [Hlen _].
  unfold sub_half_slice, setitem_slice, pointwise, getitem_slice, get5, map5.
  rewrite Hs. cbn [data shape].
  destruct (Nat.ltb_spec i0 3) as [Hlt|Hge].
  - rewrite app_nth1
      by (rewrite length_map, length_firstn; lia).
    set (f := fun r : R => sub r half).
    change (@nil (list (list (list R))))
      with (map (map (map (map f))) []) at 1.
    rewrite map_nth.
    change (@nil (list (list R))) with (map (map (map f)) []) at 1.
    rewrite map_nth.
    change (@nil (list R)) with (map (map f) []) at 1.
    rewrite map_nth.
    change (@nil R) with (map f []) at 1.
    rewrite map_nth.
    rewrite nth_firstn.
    destruct (Nat.ltb_spec i0 3); [|lia].
    rewrite (nth_indep _ inhabitant (f inhabitant))
      by (rewrite length_map; lia).
    now rewrite map_nth.
  - rewrite app_nth2
      by (rewrite length_map, length_firstn; lia).
    rewrite length_map, length_firstn, nth_skipn.
    replace (3 + (i0 - Nat.min 3 (length (data t)))) with i0 by lia.
    reflexivity.
Qed.

(** Whatever the mode, the object behind the argument of [_normalize]
    ends up holding [normalized], and the argument is what is returned. *)
Lemma normalize_contents (self : LitModel) (x : loc)
    (st : gmap nat (Tensor5 R)) (t : Tensor5 R) :
  st !! x = Some t ->
  fst (_normalize self x st) !! x = Some (normalized self t) /\
  snd (_normalize self x st) = x.
Proof.
  intros Hx. unfold _normalize, normalized.
  destruct (py_in (use_keypoints self) [PyInt 0; PyInt 1]).
  - rewrite Hx. cbn [fst snd]. split; [apply lookup_insert_eq|reflexivity].
  - cbn [fst snd]. now split.
Qed.

(** The slice assignment, written out on the elements. *)
Lemma sub_half_slice_contents (t : Tensor5 R) :
  sub_half_slice t
  = mkTensor5 (shape t)
      (map5 (fun r => sub r half) (firstn 3 (data t)) ++ skipn 3 (data t)).
Proof.
  unfold sub_half_slice, setitem_slice, pointwise, getitem_slice.
  destruct (shape t) as [[[[n0 n1] n2] n3] n4]. reflexivity.
Qed.

(** C10. When the keypoint mode is disabled or enabled, [_normalize]
    mutates its argument in place and returns it: the reference that
    comes back is the argument; the object behind it, the caller's batch
    tensor, now holds the old entries with 0.5 subtracted from every
    element of the first three entries along axis 0 and the remaining
    entries as they were; no object is added to the store and every other
    object is untouched. On a well-formed tensor the element at an index
    reads as the old element minus 0.5 when the index along axis 0 is
    below 3, and wherever that subtraction changes the value the caller's
    tensor is no longer the tensor it was. *)
Theorem normalize_in_place (self : LitModel) (x : loc)
    (st : gmap nat (Tensor5 R)) (t : Tensor5 R)
    (Hmode : py_eq (use_keypoints self) (PyBool false) = true
             \/ py_eq (use_keypoints self) (PyBool true) = true)
    (Hx : st !! x = Some t) :
  snd (_normalize self x st) = x /\
  fst (_normalize self x st) !! x
  = Some (mkTensor5 (shape t)
            (map5 (fun r => sub r half) (firstn 3 (data t))
             ++ skipn 3 (data t))) /\
  dom (fst (_normalize self x st)) = dom st /\
  (forall y, y <> x -> fst (_normalize self x st) !! y = st !! y) /\
  (forall n0 n1 n2 n3 n4 i0 i1 i2 i3 i4,
      shape t = (n0, n1, n2, n3, n4) -> wf5 t ->
      i0 < n0 -> i1 < n1 -> i2 < n2 -> i3 < n3 -> i4 < n4 ->
      exists t',
        fst (_normalize self x st) !! x = Some t' /\
        shape t' = shape t /\
        get5 t' i0 i1 i2 i3 i4
        = (if i0 <? 3 then sub (get5 t i0 i1 i2 i3 i4) half
           else get5 t i0 i1 i2 i3 i4) /\
        (i0 < 3 ->
         sub (get5 t i0 i1 i2 i3 i4) half <> get5 t i0 i1 i2 i3 i4 ->
         t' <> t)).
Proof.
  unfold _normalize. rewrite normalize_guard.
  replace (py_eq (use_keypoints self) (PyBool false)
           || py_eq (use_keypoints self) (PyBool true)) with true
    by (destruct Hmode as [-> | ->]; now rewrite ?orb_true_r).
  rewrite Hx. cbn [fst snd].
  split; [reflexivity|]. split; [|split; [|split]].
  - rewrite lookup_insert_eq. f_equal. apply sub_half_slice_contents.
  - apply dom_insert_lookup_L. now exists t.
  - intros y Hy. now apply lookup_insert_ne.
  - intros n0 n1 n2 n3 n4 i0 i1 i2 i3 i4 Hs Hwf H0 H1 H2 H3 H4.
    pose proof (sub_half_slice_get t n0 n1 n2 n3 n4 i0 i1 i2 i3 i4
                  Hs Hwf H0 H1 H2 H3 H4) as Hget.
    exists (sub_half_slice t).
    split; [apply lookup_insert_eq|]. split; [reflexivity|].
    split; [exact Hget|].
    intros Hlt Hchanged Hsame. rewrite Hsame in Hget.
    apply Nat.ltb_lt in Hlt. rewrite Hlt in Hget. congruence.
Qed.

End Adapters.

(** ** Construction *)

Section Construction.
Context {R : Type} {SR : Scalar R} {CR : Collaborators R}.

Lemma py_eq_true_not_false (v : pyval) :
  py_eq v (PyBool true) = true -> py_eq v (PyBool false) = false.
Proof.
  destruct v as [|[]|z|s]; cbn; try congruence.
  intros Hz. apply Z.eqb_eq in Hz. now subst.
Qed.

Lemma py_eq_only_not_bool (v : pyval) (b : bool) :
  py_eq v (PyStr "only") = true -> py_eq v (PyBool b) = false.
Proof. destruct v; cbn; congruence. Qed.

(** C4. [configure_model] derives the channel count from the keypoint
    mode by the three-way mapping disabled -> 3, enabled -> 4,
    keypoints-only -> 1, and hands it to the TimeSformer constructor. For
    a mode [v] that is none of the three, no branch assigns [in_chans]:
    nothing is raised at that point, the local stays unbound, the
    backbones that ignore it are built all the same, and only the
    timesformer branch, which reads it, stops on Python's own
    [UnboundLocalError]. *)
Theorem in_chans_three_way (v : pyval) (p : string) (n : Z)
    (Hdisabled : py_eq v (PyBool false) = false)
    (Henabled : py_eq v (PyBool true) = false)
    (Honly : py_eq v (PyStr "only") = false) :
  (forall u, py_eq u (PyBool false) = true -> in_chans_local u = Some 3) /\
  (forall u, py_eq u (PyBool true) = true -> in_chans_local u = Some 4) /\
  (forall u, py_eq u (PyStr "only") = true -> in_chans_local u = Some 1) /\
  configure_model "timesformer" p (PyBool false) n
    = Ok (TimeSformer 224 1 n "divided_space_time" p 3) /\
  configure_model "timesformer" p (PyBool true) n
    = Ok (TimeSformer 224 1 n "divided_space_time" p 4) /\
  configure_model "timesformer" p (PyStr "only") n
    = Ok (TimeSformer 224 1 n "divided_space_time" p 1) /\
  in_chans_local v = None /\
  configure_model "timesformer" p v n = Raise (UnboundLocalError "in_chans") /\
  configure_model "r2plus1" p v n = Ok (R2Plus1D_18 512 1) /\
  configure_model "videomae" p v n
    = Ok (VideoMAEForVideoClassification
            "MCG-NJU/videomae-base-finetuned-ssv2" n false 1 true).
Proof.
  assert (Hv : in_chans_local v = None)
    by (unfold in_chans_local; now rewrite Hdisabled, Henabled, Honly).
  repeat split; try reflexivity; try exact Hv.
  - intros u Hu. unfold in_chans_local. now rewrite Hu.
  - intros u Hu. unfold in_chans_local.
    now rewrite (py_eq_true_not_false u Hu), Hu.
  - intros u Hu. unfold in_chans_local.
    now rewrite !(py_eq_only_not_bool u _ Hu), Hu.
  - unfold configure_model. rewrite Hv. reflexivity.
Qed.

Lemma model_local_unknown (tag p : string) (n : Z) (ic : option nat) :
  tag <> "timesformer" -> tag <> "r2plus1" -> tag <> "videomae" ->
  model_local tag p n ic = Ok None.
Proof.
  intros Ht Hr Hv. apply String.eqb_neq in Ht, Hr, Hv.
  unfold model_local. now rewrite Ht, Hr, Hv.
Qed.

Lemma every_dispatch_unguarded (d : dispatch) : @unguarded R d.
Proof.
  destruct d; cbn.
  - now exists (PyInt 2).
  - now exists "resnet", "", 0%Z, None.
  - now exists (Adam zero zero), "cosine", [], zero.
Qed.

(** C5 (as amended). All three configuration chains are unguarded: the
    keypoint mode, the backbone tag and the scheduler name. For every
    tag outside timesformer, r2plus1 and videomae no branch of
    [configure_model] assigns [model], so its [return] stops on Python's
    [UnboundLocalError] (and with it [__init__]); for every scheduler
    name other than multi-step-lr the same holds of [scheduler] in
    [configure_scheduler] (and with it [configure_optimizers]). *)
Theorem unguarded_dispatches (tag p name lf : string) (v : pyval) (n : Z)
    (lr wd fg g : R) (ms : list Z) (self : LitModel)
    (Htimesformer : tag <> "timesformer") (Hr2plus1 : tag <> "r2plus1")
    (Hvideomae : tag <> "videomae") (Hname : name <> "multi-step-lr")
    (Hself : scheduler_name self = name) :
  model_local tag p n (in_chans_local v) = Ok None /\
  configure_model tag p v n = Raise (UnboundLocalError "model") /\
  init tag p n lr wd lf fg name ms g v = Raise (UnboundLocalError "model") /\
  scheduler_local (Adam lr wd) name ms g = None /\
  configure_scheduler (Adam lr wd) name ms g
    = Raise (UnboundLocalError "scheduler") /\
  configure_optimizers self = Raise (UnboundLocalError "scheduler") /\
  (forall d : dispatch, @unguarded R d).
Proof.
  pose proof (model_local_unknown tag p n (in_chans_local v)
                Htimesformer Hr2plus1 Hvideomae) as Hm.
  assert (Hc : configure_model tag p v n = Raise (UnboundLocalError "model"))
    by (unfold configure_model; now rewrite Hm).
  assert (Hs : forall o : Optimizer R, scheduler_local o name ms g = None).
  { intros o. unfold scheduler_local.
    apply String.eqb_neq in Hname. now rewrite Hname. }
  repeat split.
  - exact Hm.
  - exact Hc.
  - unfold init. now rewrite Hc.
  - apply Hs.
  - unfold configure_scheduler. now rewrite Hs.
  - unfold configure_optimizers, configure_scheduler, scheduler_local.
    rewrite Hself. apply String.eqb_neq in Hname. now rewrite Hname.
  - apply every_dispatch_unguarded.
Qed.

End Construction.

(** ** Steps *)

Section Steps.
Context {R : Type} {SR : Scalar R} {CR : Collaborators R}.

Lemma forward_spec (self : LitModel) (x : Tensor5 R) (tr : list (event R)) :
  forward x (self, tr)
  = (if String.eqb (model_name self) "videomae"
     then getattr_logits (run_backbone (model self) x)
     else Ok (run_backbone (model self) x),
     (self, tr ++ [EvModel x])).
Proof.
  unfold forward, call_model, bind, get_self, emit, ret, lift. cbn [fst snd].
  now destruct (String.eqb (model_name self) "videomae").
Qed.

Lemma training_step_spec (self : LitModel) (x : Tensor5 R) (y : list Z)
    (i : nat) (tr : list (event R)) :
  training_step (x, y) i (self, tr)
  = match logits_of self (_reshape self x) with
    | Raise e => (Raise e, (self, tr ++ [EvModel (_reshape self x)]))
    | Ok y_hat =>
        let loss := criterion self y_hat (map of_label y) in
        let probs := map sigmoid y_hat in
        (Ok loss,
         (fed train_attrs probs y self,
          tr ++ [EvModel (_reshape self x);
                 EvCriterion y_hat (map of_label y);
                 EvForward TrainAccuracy probs y;
                 EvForward TrainPrecision probs y;
                 EvForward TrainRecall probs y;
                 EvForward TrainF1 probs y;
                 EvForward TrainIou probs y;
                 EvLog "train_loss_step" (ObjScalar loss);
                 EvLog "train_acc_step" (batch_value TrainAccuracy self probs y);
                 EvLog "train_prec_step" (batch_value TrainPrecision self probs y);
                 EvLog "train_rec_step" (batch_value TrainRecall self probs y);
                 EvLog "train_f1_step" (batch_value TrainF1 self probs y);
                 EvLog "train_iou_step" (batch_value TrainIou self probs y)]))
    end.
Proof.
  unfold training_step, reshape. unfold bind at 1 2. unfold get_self at 1.
  cbn [fst snd]. rewrite forward_spec. unfold logits_of, rbind.
  destruct (if String.eqb (model_name self) "videomae"
            then getattr_logits (run_backbone (model self) (_reshape self x))
            else Ok (run_backbone (model self) (_reshape self x)))
    as [out|e]; [|reflexivity].
  unfold bind at 1. unfold lift at 1.
  destruct (getitem_col0 out) as [y_hat|e]; [|reflexivity].
  destruct self.
  cbv [bind call_criterion metric_forward log emit ret get_self put_metric
       fst snd Metric.forward get_metric set_metric fed fold_left train_attrs
       batch_value Metric.kind Metric.acc criterion].
  now rewrite <- !app_assoc.
Qed.

Lemma validation_step_spec (self : LitModel) (x : Tensor5 R) (y : list Z)
    (i : nat) (tr : list (event R)) :
  validation_step (x, y) i (self, tr)
  = match logits_of self (_reshape self x) with
    | Raise e => (Raise e, (self, tr ++ [EvModel (_reshape self x)]))
    | Ok y_hat =>
        let loss := criterion self y_hat (map of_label y) in
        let probs := map sigmoid y_hat in
        (Ok (<["loss" := ObjScalar loss]> (<["acc" := ObjNone]>
              (<["rec" := ObjNone]> (<["prec" := ObjNone]>
              (<["f1" := ObjNone]> (<["iou" := ObjNone]> ∅)))))),
         (fed val_step_attrs probs y self,
          tr ++ [EvModel (_reshape self x);
                 EvCriterion y_hat (map of_label y);
                 EvLog "val_loss" (ObjScalar loss);
                 EvUpdate ValAccuracy probs y;
                 EvUpdate ValPrecision probs y;
                 EvUpdate ValRecall probs y;
                 EvUpdate ValIou probs y;
                 EvUpdate ValF1 probs y]))
    end.
Proof.
  unfold validation_step, reshape. unfold bind at 1 2. unfold get_self at 1.
  cbn [fst snd]. rewrite forward_spec. unfold logits_of, rbind.
  destruct (if String.eqb (model_name self) "videomae"
            then getattr_logits (run_backbone (model self) (_reshape self x))
            else Ok (run_backbone (model self) (_reshape self x)))
    as [out|e]; [|reflexivity].
  unfold bind at 1. unfold lift at 1.
  destruct (getitem_col0 out) as [y_hat|e]; [|reflexivity].
  destruct self.
  cbv [bind call_criterion metric_update log emit ret get_self put_metric
       fst snd Metric.update get_metric set_metric fed fold_left val_step_attrs
       Metric.kind Metric.acc criterion].
  now rewrite <- !app_assoc.
Qed.

Lemma training_epoch_end_spec (self : LitModel) (tr : list (event R)) :
  training_epoch_end (self, tr)
  = (Ok tt, (cleared train_attrs self, tr ++ map EvReset train_attrs)).
Proof.
  destruct self.
  cbv [training_epoch_end bind metric_reset emit ret get_self put_metric
       fst snd Metric.reset get_metric set_metric cleared fold_left train_attrs
       Metric.kind Metric.acc map].
  now rewrite <- !app_assoc.
Qed.

Lemma validation_epoch_end_spec (self : LitModel) (tr : list (event R)) :
  validation_epoch_end (self, tr)
  = (Ok tt,
     (cleared val_attrs self,
      tr ++ [EvCompute ValAccuracy;
             EvLog "val_acc" (ObjScalar (Metric.compute (val_accuracy self)));
             EvCompute ValPrecision;
             EvLog "val_prec" (ObjScalar (Metric.compute (val_precision self)));
             EvCompute ValRecall;
             EvLog "val_rec" (ObjScalar (Metric.compute (val_recall self)));
             EvCompute ValF1;
             EvLog "val_f1" (ObjScalar (Metric.compute (val_f1 self)));
             EvCompute ValIou;
             EvLog "val_iou" (ObjScalar (Metric.compute (val_iou self)))]
         ++ map EvReset val_attrs)).
Proof.
  destruct self.
  cbv [validation_epoch_end bind metric_reset metric_compute log emit ret
       get_self put_metric fst snd Metric.reset Metric.compute get_metric
       set_metric cleared fold_left val_attrs Metric.kind Metric.acc map
       val_accuracy val_precision val_recall val_f1 val_iou].
  now rewrite <- !app_assoc.
Qed.

End Steps.

(** ** What the hooks do *)

Section Hooks.
Context {R : Type} {SR : Scalar R} {CR : Collaborators R}.

(** C2 (as amended). On every training and validation step the input
    video tensor goes through [_reshape] and nothing else before the
    forward pass: the backbone is called once, on the reshaped tensor.
    The adapter touches the model input only: the criterion gets the
    logits of that call and the labels cast to float, the accumulators
    get the sigmoid of those logits and the labels as given. *)
Theorem steps_reshape_only (self : LitModel) (x : Tensor5 R) (y : list Z)
    (i : nat) (tr : list (event R)) :
  (exists new, snd (snd (training_step (x, y) i (self, tr))) = tr ++ new
               /\ only_reshaped self x y new) /\
  (exists new, snd (snd (validation_step (x, y) i (self, tr))) = tr ++ new
               /\ only_reshaped self x y new).
Proof.
  rewrite training_step_spec, validation_step_spec.
  destruct (logits_of self (_reshape self x)) as [y_hat|e] eqn:Hl.
  - split; (eexists; split; [reflexivity|]);
      (split; [reflexivity|]); cbn; split;
      repeat constructor; cbn; eauto.
  - split; (eexists; split; [reflexivity|]);
      (split; [reflexivity|]); cbn; split; constructor.
Qed.

Lemma getitem_col0_rows (L : Logits R) (B : nat) :
  ncols L = 1 -> rect B (fun r : list R => length r = 1) (rows L) ->
  exists y_hat,
    getitem_col0 (OutTensor L) = Ok y_hat /\ length y_hat = B /\
    (forall b, b < B -> nth b (rows L) [] = [nth b y_hat inhabitant]).
Proof.
  intros Hc Hr. unfold getitem_col0. rewrite Hc.
  change (1 =? 0) with false. cbv iota.
  eexists. split; [reflexivity|]. destruct (Hr) as [Hlen _].
  split; [now rewrite length_map|].
  intros b Hb. pose proof (rect_nth _ _ _ [] b Hr Hb) as Hrow.
  cbn beta in Hrow.
  rewrite (nth_indep _ inhabitant (nth 0 [] inhabitant))
    by (rewrite length_map; lia).
  rewrite (map_nth (fun r => nth 0 r inhabitant)).
  destruct (nth b (rows L) []) as [|r0 [|r1 rest]]; cbn in Hrow; try lia.
  reflexivity.
Qed.

(** C8. For each supported backbone and any batch of B samples, given
    that the backbone answers with B rows of one logit (as a structured
    output for videomae, as a tensor otherwise): [forward] returns the
    logits tensor, taken from the [logits] field for videomae and being
    the raw output otherwise; [[:,0]] then yields exactly B scalars, the
    b-th one being the single logit of sample b; and these are the logits
    both steps pass on. *)
Theorem one_logit_per_sample (self : LitModel) (x : Tensor5 R) (y : list Z)
    (i : nat) (tr : list (event R)) (L : Logits R) (B T H W C : nat)
    (Hsupported : model_name self = "timesformer"
                  \/ model_name self = "r2plus1"
                  \/ model_name self = "videomae")
    (Hshape : shape x = (B, T, H, W, C))
    (Hout : run_backbone (model self) (_reshape self x)
            = if String.eqb (model_name self) "videomae"
              then OutClassifier L else OutTensor L)
    (Hcols : ncols L = 1)
    (Hrows : rect B (fun r : list R => length r = 1) (rows L)) :
  fst (forward (_reshape self x) (self, tr)) = Ok (OutTensor L) /\
  (model_name self = "videomae" ->
     getattr_logits (run_backbone (model self) (_reshape self x))
     = Ok (OutTensor L)) /\
  (model_name self <> "videomae" ->
     run_backbone (model self) (_reshape self x) = OutTensor L) /\
  exists y_hat,
    logits_of self (_reshape self x) = Ok y_hat /\
    length y_hat = B /\
    (forall b, b < B -> nth b (rows L) [] = [nth b y_hat inhabitant]) /\
    criterion_calls (snd (snd (training_step (x, y) i (self, tr))))
    = criterion_calls tr ++ [(y_hat, map of_label y)] /\
    criterion_calls (snd (snd (validation_step (x, y) i (self, tr))))
    = criterion_calls tr ++ [(y_hat, map of_label y)].
Proof.
  destruct (getitem_col0_rows L B Hcols Hrows) as (y_hat & Hy & Hlen & Hnth).
  assert (Hfw : (if String.eqb (model_name self) "videomae"
                 then getattr_logits (run_backbone (model self) (_reshape self x))
                 else Ok (run_backbone (model self) (_reshape self x)))
                = Ok (OutTensor L)).
  { rewrite Hout. now destruct (String.eqb (model_name self) "videomae"). }
  assert (Hl : logits_of self (_reshape self x) = Ok y_hat).
  { unfold logits_of. rewrite Hfw. exact Hy. }
  split; [|split; [|split]].
  - rewrite forward_spec. exact Hfw.
  - intros Hn. rewrite Hn in Hfw. exact Hfw.
  - intros Hn. apply String.eqb_neq in Hn. rewrite Hn in Hout. exact Hout.
  - exists y_hat. rewrite training_step_spec, validation_step_spec, Hl.
    cbn [fst snd]. unfold criterion_calls.
    rewrite !omap_app. cbn. auto.
Qed.

(** *** The dictionary of a validation step *)

Lemma validation_step_dict (self : LitModel) (x : Tensor5 R) (y : list Z)
    (i : nat) (tr : list (event R)) (d : gmap string (pyobj R)) :
  fst (validation_step (x, y) i (self, tr)) = Ok d ->
  d !! "acc" = Some ObjNone /\ d !! "rec" = Some ObjNone /\
  d !! "prec" = Some ObjNone /\ d !! "f1" = Some ObjNone /\
  d !! "iou" = Some ObjNone /\
  exists y_hat, logits_of self (_reshape self x) = Ok y_hat /\
                d !! "loss" = Some (ObjScalar (criterion self y_hat (map of_label y))).
Proof.
  rewrite validation_step_spec.
  destruct (logits_of self (_reshape self x)) as [y_hat|e]; [|discriminate].
  cbn [fst]. intros [= <-].
  repeat split; try reflexivity. now exists y_hat.
Qed.

End Hooks.

(** ** Epoch ends and the life of the object *)

Section Epochs.
Context {R : Type} {SR : Scalar R} {CR : Collaborators R}.

Lemma reads_then_resets (reads resets : list (event R)) :
  Forall (fun e => is_reset e = false) reads ->
  Forall (fun e => is_read e = false) resets ->
  reads_before_resets (reads ++ resets).
Proof.
  intros Hreads Hresets i j e e' Hi Hj He He'.
  apply lookup_app_Some in Hi. apply lookup_app_Some in Hj.
  destruct Hi as [Hi | [Hi _]].
  - rewrite List.Forall_forall in Hreads.
    apply list_elem_of_lookup_2, list_elem_of_In, Hreads in Hi. congruence.
  - destruct Hj as [Hj | [_ Hj]].
    + apply lookup_lt_Some in Hj. lia.
    + rewrite List.Forall_forall in Hresets.
      apply list_elem_of_lookup_2, list_elem_of_In, Hresets in Hj. congruence.
Qed.

Lemma get_cleared (attrs : list metric_attr) (a : metric_attr) (self : LitModel) :
  NoDup attrs ->
  get_metric a (cleared attrs self)
  = if bool_decide (a ∈ attrs) then Metric.reset (get_metric a self)
    else get_metric a self.
Proof.
  unfold cleared. revert self.
  induction attrs as [|b attrs IH]; intros self Hnd; [reflexivity|].
  apply NoDup_cons in Hnd. destruct Hnd as [Hb Hnd].
  cbn [fold_left]. rewrite IH by exact Hnd.
  destruct (decide (a = b)) as [->|Hab].
  - rewrite (bool_decide_eq_false_2 _ Hb).
    rewrite bool_decide_eq_true_2 by apply list_elem_of_here.
    destruct self, b; reflexivity.
  - assert (Hg : forall m, get_metric a (set_metric b m self) = get_metric a self)
      by (intros m; destruct self, a, b; try reflexivity; congruence).
    rewrite !Hg.
    destruct (decide (a ∈ attrs)) as [Hin|Hin].
    + rewrite !bool_decide_eq_true_2; [reflexivity| |exact Hin].
      now apply list_elem_of_further.
    + rewrite !bool_decide_eq_false_2; [reflexivity| |exact Hin].
      intros Hc. apply elem_of_cons in Hc. tauto.
Qed.

(** C6. At the end of an epoch the training hook only resets the five
    training accumulators: it reads and logs nothing, and leaves the
    validation accumulators alone. The validation hook reads each of the
    five validation accumulators as accumulated over the epoch and logs
    that value, and only then resets the five; in its trace no read or
    log comes after a reset. *)
Theorem epoch_end_read_then_reset (self : LitModel) (tr : list (event R)) :
  (exists new,
      training_epoch_end (self, tr)
      = (Ok tt, (cleared train_attrs self, tr ++ new)) /\
      new = map EvReset train_attrs /\
      logged new = [] /\
      Forall (fun e => is_read e = false) new /\
      (forall a, get_metric a (cleared train_attrs self)
                 = if is_train a then Metric.reset (get_metric a self)
                   else get_metric a self)) /\
  (exists reads,
      validation_epoch_end (self, tr)
      = (Ok tt, (cleared val_attrs self, tr ++ reads ++ map EvReset val_attrs)) /\
      Forall (fun e => is_read e = true) reads /\
      logged (reads ++ map EvReset val_attrs)
      = [("val_acc", ObjScalar (Metric.compute (val_accuracy self)));
         ("val_prec", ObjScalar (Metric.compute (val_precision self)));
         ("val_rec", ObjScalar (Metric.compute (val_recall self)));
         ("val_f1", ObjScalar (Metric.compute (val_f1 self)));
         ("val_iou", ObjScalar (Metric.compute (val_iou self)))] /\
      reads_before_resets (reads ++ map EvReset val_attrs) /\
      (forall a, get_metric a (cleared val_attrs self)
                 = if is_train a then get_metric a self
                   else Metric.reset (get_metric a self))).
Proof.
  split.
  - exists (map EvReset train_attrs).
    rewrite training_epoch_end_spec.
    repeat split; try reflexivity.
    + repeat constructor.
    + intros a. rewrite get_cleared by (unfold train_attrs; apply NoDup_ListNoDup;
        repeat constructor; cbn; intuition discriminate).
      destruct a; reflexivity.
  - eexists. rewrite validation_epoch_end_spec.
    split; [reflexivity|]. split; [repeat constructor|].
    split; [reflexivity|]. split.
    + apply reads_then_resets; repeat constructor.
    + intros a. rewrite get_cleared by (unfold val_attrs; apply NoDup_ListNoDup;
        repeat constructor; cbn; intuition discriminate).
      destruct a; reflexivity.
Qed.

(** *** Nothing reassigns the selection *)

Lemma selection_set_metric (a : metric_attr) (m : Metric.t R) (self : LitModel) :
  selection (set_metric a m self) = selection self.
Proof. destruct self, a; reflexivity. Qed.

Lemma selection_fed (attrs : list metric_attr) (p : list R) (y : list Z)
    (self : LitModel) :
  selection (fed attrs p y self) = selection self.
Proof.
  unfold fed. revert self. induction attrs as [|a attrs IH]; intros self;
    [reflexivity|].
  cbn [fold_left]. rewrite IH. apply selection_set_metric.
Qed.

Lemma selection_cleared (attrs : list metric_attr) (self : LitModel) :
  selection (cleared attrs self) = selection self.
Proof.
  unfold cleared. revert self. induction attrs as [|a attrs IH]; intros self;
    [reflexivity|].
  cbn [fold_left]. rewrite IH. apply selection_set_metric.
Qed.

Lemma selection_run_hook (w : world) (h : hook) :
  selection (fst (run_hook w h)) = selection (fst w).
Proof.
  destruct w as [self tr]. destruct h as [[x y] i|[x y] i| |]; cbn [run_hook].
  - rewrite training_step_spec.
    destruct (logits_of self (_reshape self x)); cbn [fst snd];
      [apply selection_fed|reflexivity].
  - rewrite validation_step_spec.
    destruct (logits_of self (_reshape self x)); cbn [fst snd];
      [apply selection_fed|reflexivity].
  - rewrite training_epoch_end_spec. apply selection_cleared.
  - rewrite validation_epoch_end_spec. apply selection_cleared.
Qed.

Lemma selection_run_hooks (hs : list hook) (w : world) :
  selection (fst (run_hooks hs w)) = selection (fst w).
Proof.
  unfold run_hooks. revert w. induction hs as [|h hs IH]; intros w;
    [reflexivity|].
  cbn [fold_left]. rewrite IH. apply selection_run_hook.
Qed.

(** C9. Whatever sequence of training steps, validation steps and epoch
    ends the driver runs, whether or not a step raises, the object keeps
    the backbone name, the keypoint mode and the backbone instance it
    was constructed with; hence [_reshape], [_normalize] and [forward]
    dispatch after the sequence as they did before it. *)
Theorem selection_immutable (hs : list hook) (self : LitModel)
    (tr : list (event R)) :
  model_name (fst (run_hooks hs (self, tr))) = model_name self /\
  use_keypoints (fst (run_hooks hs (self, tr))) = use_keypoints self /\
  model (fst (run_hooks hs (self, tr))) = model self /\
  (forall x, _reshape (fst (run_hooks hs (self, tr))) x = _reshape self x) /\
  (forall x st, _normalize (fst (run_hooks hs (self, tr))) x st
                = _normalize self x st) /\
  (forall x tr', fst (forward x (fst (run_hooks hs (self, tr)), tr'))
                 = fst (forward x (self, tr'))).
Proof.
  pose proof (selection_run_hooks hs (self, tr)) as Hsel.
  unfold selection in Hsel. cbn [fst] in Hsel.
  injection Hsel as Hn Hk Hm.
  repeat split; try assumption.
  - intros x. unfold _reshape. now rewrite Hn.
  - intros x st. unfold _normalize. now rewrite Hk.
  - intros x tr'. rewrite !forward_spec. cbn [fst]. now rewrite Hn, Hm.
Qed.

End Epochs.

(** ** The wrapper at work on the small instance *)

Lemma construct_r2plus1_rgb : Toy.construct "r2plus1" (PyInt 0) = Ok Toy.r2plus1_rgb.
Proof. reflexivity. Qed.

Lemma construct_timesformer_rgb :
  Toy.construct "timesformer" (PyBool false) = Ok Toy.timesformer_rgb.
Proof. reflexivity. Qed.

Lemma construct_videomae_rgb :
  Toy.construct "videomae" (PyBool false) = Ok Toy.videomae_rgb.
Proof. reflexivity. Qed.

Lemma clip_wf : wf5 Toy.clip.
Proof. unfold wf5, rect. cbn. repeat constructor. Qed.

(** C7 at the clip: the timesformer object turns (2,1,1,2,3) into
    (2,3,1,1,2) and the inverse pattern restores the clip. *)
Lemma reshape_axis_permutation_witness :
  shape (_reshape Toy.timesformer_rgb Toy.clip) = (2, 3, 1, 1, 2) /\
  rearrange (_reshape Toy.timesformer_rgb Toy.clip) bcthw_to_bthwc = Toy.clip.
Proof.
  destruct (reshape_axis_permutation Toy.timesformer_rgb Toy.clip 2 1 1 2 3
              eq_refl clip_wf) as [Ht _].
  destruct (Ht eq_refl) as (Hs & _ & _ & Hr).
  exact (conj Hs Hr).
Defined.

(** C10 at a store holding one (4,1,1,1,4) tensor of ones at reference 0:
    the same reference comes back, and the object behind it holds 1/2 in
    its first three samples: it is no longer the tensor of ones. *)
Lemma normalize_in_place_witness :
  snd (_normalize Toy.r2plus1_rgbk 0 {[0 := Toy.ones 4 1 1 1 4]}) = 0 /\
  fst (_normalize Toy.r2plus1_rgbk 0 {[0 := Toy.ones 4 1 1 1 4]}) !! 0
  = Some (mkTensor5 (4, 1, 1, 1, 4)
            [ [[[ [1 # 2; 1 # 2; 1 # 2; 1 # 2] ]]];
              [[[ [1 # 2; 1 # 2; 1 # 2; 1 # 2] ]]];
              [[[ [1 # 2; 1 # 2; 1 # 2; 1 # 2] ]]];
              [[[ [1; 1; 1; 1] ]]] ]%Q) /\
  fst (_normalize Toy.r2plus1_rgbk 0 {[0 := Toy.ones 4 1 1 1 4]}) !! 0
  <> Some (Toy.ones 4 1 1 1 4).
Proof.
  assert (Hx : ({[0 := Toy.ones 4 1 1 1 4]} : gmap nat (Tensor5 Q)) !! 0
               = Some (Toy.ones 4 1 1 1 4)) by (vm_compute; reflexivity).
  destruct (normalize_in_place Toy.r2plus1_rgbk 0 {[0 := Toy.ones 4 1 1 1 4]}
              (Toy.ones 4 1 1 1 4) (or_intror eq_refl) Hx)
    as (Href & Hcontents & _ & _ & Helements).
  destruct (Helements 4 1 1 1 4 0 0 0 0 0 eq_refl) as (t' & Ht' & _ & _ & Hne).
  - unfold wf5, rect. cbn. repeat constructor.
  - lia.
  - lia.
  - lia.
  - lia.
  - lia.
  - split; [exact Href|]. split.
    + refine (eq_trans Hcontents _). vm_compute. reflexivity.
    + intros Hstored.
      assert (Hsame : Some t' = Some (Toy.ones 4 1 1 1 4))
        by exact (eq_trans (eq_sym Ht') Hstored).
      injection Hsame as Hsame. revert Hsame. apply Hne; [lia|].
      vm_compute. discriminate.
Defined.

(** C3, evaluated. With keypoints enabled and four samples of four
    channels, all equal to 1: [x[:3]] slices the batch axis, so the
    keypoint channel of the first three samples is lowered to 1/2 with the
    RGB channels, and the RGB channels of the fourth sample stay at 1. *)
Theorem normalize_slices_batch_axis :
  normalized Toy.r2plus1_rgbk (Toy.ones 4 1 1 1 4)
  = mkTensor5 (4, 1, 1, 1, 4)
      [ [[[ [1 # 2; 1 # 2; 1 # 2; 1 # 2] ]]];
        [[[ [1 # 2; 1 # 2; 1 # 2; 1 # 2] ]]];
        [[[ [1 # 2; 1 # 2; 1 # 2; 1 # 2] ]]];
        [[[ [1; 1; 1; 1] ]]] ]%Q /\
  fst (_normalize Toy.r2plus1_rgbk 0 {[0 := Toy.ones 4 1 1 1 4]}) !! 0
  = Some (normalized Toy.r2plus1_rgbk (Toy.ones 4 1 1 1 4)) /\
  get5 (Toy.ones 4 1 1 1 4) 0 0 0 0 3 = 1%Q /\
  get5 (normalized Toy.r2plus1_rgbk (Toy.ones 4 1 1 1 4)) 0 0 0 0 3 = (1 # 2)%Q /\
  get5 (normalized Toy.r2plus1_rgbk (Toy.ones 4 1 1 1 4)) 3 0 0 0 0 = 1%Q.
Proof. repeat split; vm_compute; reflexivity. Qed.

(** C4 at the mode 2, which is none of the three. *)
Lemma in_chans_three_way_witness :
  in_chans_local (PyInt 2) = None /\
  configure_model "timesformer" "w.pth" (PyInt 2) 16
  = Raise (UnboundLocalError "in_chans") /\
  configure_model "r2plus1" "w.pth" (PyInt 2) 16 = Ok (R2Plus1D_18 512 1).
Proof.
  destruct (in_chans_three_way (PyInt 2) "w.pth" 16 eq_refl eq_refl eq_refl)
    as (_ & _ & _ & _ & _ & _ & Hlocal & Htimesformer & Hr2plus1 & _).
  exact (conj Hlocal (conj Htimesformer Hr2plus1)).
Defined.

(** C5 as stated fails: the keypoint chain is a third unguarded one. The
    mode 2 leaves [in_chans] unassigned and the r2plus1 object is built
    without a complaint. *)
Lemma keypoint_dispatch_unguarded :
  in_chans_local (PyInt 2) = None /\
  Toy.construct "r2plus1" (PyInt 2)
  = Ok (Toy.lit "r2plus1" (R2Plus1D_18 512 1) (PyInt 2)) /\
  ~ (forall d : dispatch,
        @unguarded Q d -> d = BackboneDispatch \/ d = SchedulerDispatch).
Proof.
  split; [reflexivity|]. split; [reflexivity|].
  intros Hexactly.
  destruct (Hexactly KeypointDispatch) as [Hd|Hd]; [|discriminate Hd..].
  now exists (PyInt 2).
Qed.

(** C5 (as amended) at the tag "resnet" and the scheduler "cosine". *)
Lemma unguarded_dispatches_witness :
  Toy.construct "resnet" (PyBool false) = Raise (UnboundLocalError "model") /\
  configure_optimizers Toy.r2plus1_cosine = Raise (UnboundLocalError "scheduler").
Proof.
  destruct (unguarded_dispatches "resnet" "w.pth" "cosine" "bce"
              (PyBool false) 16 (1 # 10000)%Q 0%Q 2%Q (1 # 10)%Q [5; 10]%Z
              Toy.r2plus1_cosine
              ltac:(discriminate) ltac:(discriminate) ltac:(discriminate)
              ltac:(discriminate) eq_refl)
    as (_ & _ & Hinit & _ & _ & Hopt & _).
  exact (conj Hinit Hopt).
Defined.

(** C2 as stated fails: with keypoints disabled, where [_normalize] would
    change the tensor, both steps call the backbone on the reshaped clip
    itself and not on its normalised contents. *)
Lemma steps_do_not_normalize :
  normalized Toy.r2plus1_rgb (_reshape Toy.r2plus1_rgb Toy.clip)
  <> _reshape Toy.r2plus1_rgb Toy.clip /\
  model_inputs (snd (snd (training_step (Toy.clip, [1; 0]%Z) 0 (Toy.r2plus1_rgb, []))))
  <> [normalized Toy.r2plus1_rgb (_reshape Toy.r2plus1_rgb Toy.clip)] /\
  model_inputs (snd (snd (validation_step (Toy.clip, [1; 0]%Z) 0 (Toy.r2plus1_rgb, []))))
  <> [normalized Toy.r2plus1_rgb (_reshape Toy.r2plus1_rgb Toy.clip)].
Proof. repeat split; vm_compute; intros Heq; discriminate Heq. Qed.

(** C8 at the videomae object and the clip: two samples, two logits. *)
Lemma one_logit_per_sample_witness :
  fst (forward (_reshape Toy.videomae_rgb Toy.clip) (Toy.videomae_rgb, []))
  = Ok (OutTensor (mkLogits 1 [[1]; [7]]%Q)) /\
  logits_of Toy.videomae_rgb (_reshape Toy.videomae_rgb Toy.clip) = Ok [1; 7]%Q.
Proof.
  assert (Hrows : rect 2 (fun r : list Q => length r = 1) [[1]; [7]]%Q)
    by (split; [reflexivity | repeat constructor]).
  destruct (one_logit_per_sample Toy.videomae_rgb Toy.clip [1; 0]%Z 0 []
              (mkLogits 1 [[1]; [7]]%Q) 2 1 1 2 3
              (or_intror (or_intror eq_refl)) eq_refl eq_refl eq_refl Hrows)
    as (Hforward & _ & _ & y_hat & Hlogits & Hlen & Hnth & _).
  split; [exact Hforward|].
  rewrite Hlogits. f_equal.
  destruct y_hat as [|a [|b [|c rest]]]; try discriminate Hlen.
  pose proof (Hnth 0 ltac:(lia)) as H0. pose proof (Hnth 1 ltac:(lia)) as H1.
  cbn in H0, H1. congruence.
Defined.

(** C1, evaluated. On the clip with labels [1, 0] the validation step of
    the r2plus1 object returns the loss under "loss" and [None] under
    "acc", "rec", "prec", "f1" and "iou": [update] returns nothing. On the
    same batch the training step, which calls the accumulators, logs the
    batch accuracy 1/2. *)
Theorem validation_step_metrics_none :
  match fst (validation_step (Toy.clip, [1; 0]%Z) 0 (Toy.r2plus1_rgb, [])) with
  | Ok d => [d !! "loss"; d !! "acc"; d !! "rec"; d !! "prec"; d !! "f1"; d !! "iou"]
  | Raise _ => []
  end
  = [Some (ObjScalar 7%Q); Some ObjNone; Some ObjNone; Some ObjNone;
     Some ObjNone; Some ObjNone] /\
  batch_value ValAccuracy Toy.r2plus1_rgb (map sigmoid [1; 7]%Q) [1; 0]%Z
  = ObjScalar (1 # 2)%Q /\
  In ("train_acc_step", ObjScalar (1 # 2)%Q)
     (logged (snd (snd (training_step (Toy.clip, [1; 0]%Z) 0 (Toy.r2plus1_rgb, []))))).
Proof.
  split; [vm_compute; reflexivity|]. split; [vm_compute; reflexivity|].
  vm_compute. right. left. reflexivity.
Qed.


(** * Further properties of the wrapper *)

(** ** Construction and the optimizer *)

Section MoreConstruction.
Context {R : Type} {SR : Scalar R} {CR : Collaborators R}.

Lemma configure_model_ok_iff (tag p : string) (v : pyval) (n : Z) :
  (exists m, configure_model tag p v n = Ok m) <->
  (tag = "timesformer" /\
   (py_eq v (PyBool false) = true \/ py_eq v (PyBool true) = true
    \/ py_eq v (PyStr "only") = true))
  \/ tag = "r2plus1" \/ tag = "videomae".
Proof.
  unfold configure_model, model_local, in_chans_local.
  destruct (String.eqb_spec tag "timesformer") as [->|Ht].
  - destruct (py_eq v (PyBool false)) eqn:Hf;
      [|destruct (py_eq v (PyBool true)) eqn:Hb;
        [|destruct (py_eq v (PyStr "only")) eqn:Ho]]; cbn.
    + split; [auto|]. intros _. eauto.
    + split; [auto|]. intros _. eauto.
    + split; [auto|]. intros _. eauto.
    + split; [intros [m Hm]; discriminate Hm|].
      intros [[_ [Hc|[Hc|Hc]]]|[Hc|Hc]]; discriminate Hc.
  - destruct (String.eqb_spec tag "r2plus1") as [->|Hr].
    + cbn. split; [auto|eauto].
    + destruct (String.eqb_spec tag "videomae") as [->|Hv].
      * cbn. split; [auto|eauto].
      * cbn. split; [intros [m Hm]; discriminate Hm|].
        intros [[Hc _]|[Hc|Hc]]; contradiction.
Qed.

(** X1. Whenever [configure_optimizers] returns a configuration, the
    scheduler name of the object is "multi-step-lr" and the configuration
    is Adam over the learning rate and weight decay of the object with a
    MultiStepLR over that same optimizer, the object's milestones and
    gamma, stepped once per epoch. With any other scheduler name it
    returns nothing. *)
Theorem configure_optimizers_returns (self : LitModel) (cfg : OptimizersConfig)
    (Hreturns : configure_optimizers self = Ok cfg) :
  scheduler_name self = "multi-step-lr" /\
  optimizer cfg = Adam (learning_rate self) (weight_decay self) /\
  scheduler (lr_scheduler cfg)
  = MultiStepLR (optimizer cfg) (scheduler_milestones self) (scheduler_gamma self) /\
  interval (lr_scheduler cfg) = "epoch" /\
  frequency (lr_scheduler cfg) = 1.
Proof.
  unfold configure_optimizers, configure_scheduler, scheduler_local in Hreturns.
  destruct (String.eqb_spec (scheduler_name self) "multi-step-lr") as [Hn|Hn];
    cbn in Hreturns; [|discriminate Hreturns].
  injection Hreturns as <-. cbn. now repeat split.
Qed.

(** X2. Construction can succeed only for the tag "r2plus1", the tag
    "videomae", and the tag "timesformer" with a keypoint mode equal to
    [False], [True] or "only": with any other tag, or with "timesformer"
    and any other mode, [__init__] does not return an object. *)
Theorem init_succeeds_only_if (tag p : string) (n : Z) (lr wd : R)
    (lf : string) (fg : R) (sn : string) (ms : list Z) (g : R) (v : pyval)
    (self : LitModel)
    (Hinit : init tag p n lr wd lf fg sn ms g v = Ok self) :
  (tag = "timesformer" /\
   (py_eq v (PyBool false) = true \/ py_eq v (PyBool true) = true
    \/ py_eq v (PyStr "only") = true))
  \/ tag = "r2plus1" \/ tag = "videomae".
Proof.
  apply (configure_model_ok_iff tag p v n). unfold init in Hinit.
  destruct (configure_model tag p v n) as [m|e]; [|discriminate Hinit].
  now exists m.
Qed.

(** X3. A constructed object holds the arguments it was given, the loss
    the factory returns, ten empty accumulators of the class their name
    says, and a backbone of the class the tag names. *)
Theorem init_object (tag p : string) (n : Z) (lr wd : R) (lf : string)
    (fg : R) (sn : string) (ms : list Z) (g : R) (v : pyval) (self : LitModel)
    (Hinit : init tag p n lr wd lf fg sn ms g v = Ok self) :
  model_name self = tag /\
  use_keypoints self = v /\
  hyperparameters self = (lr, wd, sn, ms, g) /\
  criterion self = LossFunction lf fg /\
  configure_model tag p v n = Ok (model self) /\
  backbone_of_tag (model_name self) (model self) = true /\
  (forall a, get_metric a self = Metric.new (attr_kind a)).
Proof.
  unfold init in Hinit.
  destruct (configure_model tag p v n) as [m|e] eqn:Hm; [|discriminate Hinit].
  cbn in Hinit. injection Hinit as <-. cbn.
  repeat split.
  - unfold configure_model, model_local in Hm.
    destruct (String.eqb tag "timesformer") eqn:Ht.
    + destruct (in_chans_local v); cbn in Hm; [|discriminate Hm].
      injection Hm as <-. exact Ht.
    + destruct (String.eqb tag "r2plus1") eqn:Hr.
      * cbn in Hm. injection Hm as <-. exact Hr.
      * destruct (String.eqb tag "videomae") eqn:Hv; cbn in Hm;
          [|discriminate Hm].
        injection Hm as <-. exact Hv.
  - intros a. destruct a; reflexivity.
Qed.

(** X5. [_normalize] takes its branch exactly for the keypoint modes for
    which [configure_model] counts three or four input channels: the two
    methods agree on which modes carry RGB channels. *)
Theorem normalize_iff_rgb (v : pyval) :
  py_in v [PyInt 0; PyInt 1] = true <->
  in_chans_local v = Some 3 \/ in_chans_local v = Some 4.
Proof.
  rewrite normalize_guard. unfold in_chans_local.
  destruct (py_eq v (PyBool false)) eqn:Hf; cbn; [tauto|].
  destruct (py_eq v (PyBool true)) eqn:Hb; cbn; [tauto|].
  destruct (py_eq v (PyStr "only")); split; try discriminate;
    intros [Hc|Hc]; discriminate Hc.
Qed.

(** X6. No string enables normalisation, and no string but "only" is a
    keypoint mode [configure_model] knows: with such a string [in_chans]
    stays unbound and a timesformer cannot be built. *)
Theorem string_modes (s p : string) (n : Z) (Hs : s <> "only") :
  py_in (PyStr s) [PyInt 0; PyInt 1] = false /\
  py_in (PyStr "only") [PyInt 0; PyInt 1] = false /\
  in_chans_local (PyStr s) = None /\
  configure_model "timesformer" p (PyStr s) n
  = Raise (UnboundLocalError "in_chans").
Proof.
  assert (Hl : in_chans_local (PyStr s) = None).
  { unfold in_chans_local. cbn. apply String.eqb_neq in Hs. now rewrite Hs. }
  repeat split; try reflexivity; try exact Hl.
  unfold configure_model. now rewrite Hl.
Qed.

End MoreConstruction.

(** ** The adapters on whole tensors *)

Section MoreAdapters.
Context {R : Type} {SR : Scalar R} {CR : Collaborators R}.

Lemma rect_map {X Y} (n : nat) (P : X -> Prop) (Q : Y -> Prop) (g : X -> Y)
    (l : list X) :
  (forall x, P x -> Q (g x)) -> rect n P l -> rect n Q (map g l).
Proof.
  intros HPQ [Hlen HP]. split; [now rewrite length_map|].
  rewrite List.Forall_forall in *. intros y Hy.
  apply in_map_iff in Hy. destruct Hy as (x & <- & Hx). auto.
Qed.

Lemma rect_slice {X} (n : nat) (P : X -> Prop) (g : X -> X) (l : list X) :
  (forall x, P x -> P (g x)) -> rect n P l ->
  rect n P (map g (firstn 3 l) ++ skipn 3 l).
Proof.
  intros HP [Hlen Hall]. split.
  - rewrite length_app, length_map, length_firstn, length_skipn. lia.
  - apply Forall_app. split.
    + apply (rect_map (length (firstn 3 l)) P P g); [exact HP|].
      split; [reflexivity|]. now apply Forall_take.
    + now apply Forall_drop.
Qed.

Lemma sub_half_slice_shape (t : Tensor5 R) : shape (sub_half_slice t) = shape t.
Proof. reflexivity. Qed.

Lemma sub_half_slice_wf (t : Tensor5 R) : wf5 t -> wf5 (sub_half_slice t).
Proof.
  unfold wf5. rewrite sub_half_slice_shape.
  destruct (shape t) as [[[[n0 n1] n2] n3] n4] eqn:Hs. intros Hwf.
  unfold sub_half_slice, setitem_slice, pointwise, getitem_slice, map5.
  rewrite Hs. cbn [data].
  apply rect_slice; [|exact Hwf].
  intros x1. apply rect_map. intros x2. apply rect_map.
  intros x3. apply rect_map. intros x4 Hx4. now rewrite length_map.
Qed.

Lemma normalized_shape (self : LitModel) (t : Tensor5 R) :
  shape (normalized self t) = shape t.
Proof. unfold normalized. now destruct (py_in _ _). Qed.

Lemma normalized_wf (self : LitModel) (t : Tensor5 R) :
  wf5 t -> wf5 (normalized self t).
Proof.
  unfold normalized. destruct (py_in _ _); [apply sub_half_slice_wf|auto].
Qed.

Lemma normalized_get (self : LitModel) (t : Tensor5 R)
    (n0 n1 n2 n3 n4 i0 i1 i2 i3 i4 : nat) :
  shape t = (n0, n1, n2, n3, n4) -> wf5 t ->
  i0 < n0 -> i1 < n1 -> i2 < n2 -> i3 < n3 -> i4 < n4 ->
  get5 (normalized self t) i0 i1 i2 i3 i4
  = if py_in (use_keypoints self) [PyInt 0; PyInt 1] && (i0 <? 3)
    then sub (get5 t i0 i1 i2 i3 i4) half
    else get5 t i0 i1 i2 i3 i4.
Proof.
  intros Hs Hwf H0 H1 H2 H3 H4. unfold normalized.
  destruct (py_in _ _); cbn [andb]; [|reflexivity].
  now apply (sub_half_slice_get t n0 n1 n2 n3 n4).
Qed.

(** Two well-formed tensors of one shape with the same elements are the
    same tensor. *)
Lemma tensor5_ext (a b : Tensor5 R) (n0 n1 n2 n3 n4 : nat) :
  shape a = (n0, n1, n2, n3, n4) -> shape b = (n0, n1, n2, n3, n4) ->
  wf5 a -> wf5 b ->
  (forall i0 i1 i2 i3 i4,
      i0 < n0 -> i1 < n1 -> i2 < n2 -> i3 < n3 -> i4 < n4 ->
      get5 a i0 i1 i2 i3 i4 = get5 b i0 i1 i2 i3 i4) ->
  a = b.
Proof.
  intros Ha Hb Hwa Hwb Hget.
  pose proof (build5_get5 a Hwa) as Hda. pose proof (build5_get5 b Hwb) as Hdb.
  rewrite Ha in Hda. rewrite Hb in Hdb.
  destruct a as [sa da], b as [sb db]. cbn in *. subst sa sb.
  f_equal. rewrite <- Hda, <- Hdb. now apply build5_ext.
Qed.

Lemma rearrange_shape (x : Tensor5 R) (p : pattern) (n0 n1 n2 n3 n4 : nat) :
  shape x = (n0, n1, n2, n3, n4) ->
  shape (rearrange x p)
  = match p with
    | bthwc_to_bcthw => (n0, n4, n1, n2, n3)
    | bthwc_to_btchw => (n0, n1, n4, n2, n3)
    | bcthw_to_bthwc => (n0, n2, n3, n4, n1)
    | btchw_to_bthwc => (n0, n1, n3, n4, n2)
    end.
Proof. intros Hs. unfold rearrange. rewrite Hs. now destruct p. Qed.

Lemma rearrange_get_bcthw (x : Tensor5 R) (n0 n1 n2 n3 n4 b c t h w : nat) :
  shape x = (n0, n1, n2, n3, n4) ->
  b < n0 -> c < n4 -> t < n1 -> h < n2 -> w < n3 ->
  get5 (rearrange x bthwc_to_bcthw) b c t h w = get5 x b t h w c.
Proof.
  intros Hs Hb Hc Ht Hh Hw. unfold rearrange. rewrite Hs.
  now rewrite get5_build5.
Qed.

Lemma rearrange_get_btchw (x : Tensor5 R) (n0 n1 n2 n3 n4 b t c h w : nat) :
  shape x = (n0, n1, n2, n3, n4) ->
  b < n0 -> t < n1 -> c < n4 -> h < n2 -> w < n3 ->
  get5 (rearrange x bthwc_to_btchw) b t c h w = get5 x b t h w c.
Proof.
  intros Hs Hb Ht Hc Hh Hw. unfold rearrange. rewrite Hs.
  now rewrite get5_build5.
Qed.

(** X7. On a well-formed tensor [_normalize] keeps the shape and leaves a
    well-formed tensor; the element at an index is lowered by 0.5 exactly
    when the mode is disabled or enabled and the index along axis 0 (the
    sample, in the layout the steps receive) is below 3, and is otherwise
    the element that was there. *)
Theorem normalized_elements (self : LitModel) (t : Tensor5 R)
    (n0 n1 n2 n3 n4 i0 i1 i2 i3 i4 : nat)
    (Hshape : shape t = (n0, n1, n2, n3, n4)) (Hwf : wf5 t)
    (H0 : i0 < n0) (H1 : i1 < n1) (H2 : i2 < n2) (H3 : i3 < n3) (H4 : i4 < n4) :
  shape (normalized self t) = (n0, n1, n2, n3, n4) /\
  wf5 (normalized self t) /\
  get5 (normalized self t) i0 i1 i2 i3 i4
  = if py_in (use_keypoints self) [PyInt 0; PyInt 1] && (i0 <? 3)
    then sub (get5 t i0 i1 i2 i3 i4) half
    else get5 t i0 i1 i2 i3 i4.
Proof.
  split; [now rewrite normalized_shape|].
  split; [now apply normalized_wf|].
  now apply (normalized_get self t n0 n1 n2 n3 n4).
Qed.


(** X9. Reshaping and normalising commute: both leave axis 0 in place and
    normalisation only looks at the index along axis 0, so normalising the
    reshaped tensor gives the reshaped normalised tensor. *)
Theorem normalize_reshape_commute (self : LitModel) (x : Tensor5 R)
    (Hwf : wf5 x) :
  normalized self (_reshape self x) = _reshape self (normalized self x).
Proof.
  destruct (shape x) as [[[[n0 n1] n2] n3] n4] eqn:Hs.
  pose proof (normalized_shape self x) as Hns. rewrite Hs in Hns.
  pose proof (normalized_wf self x Hwf) as Hnw.
  unfold _reshape.
  destruct (String.eqb (model_name self) "timesformer");
    [|destruct (String.eqb (model_name self) "videomae")]; [| |reflexivity].
  - apply (tensor5_ext _ _ n0 n4 n1 n2 n3).
    + rewrite normalized_shape. exact (rearrange_shape x bthwc_to_bcthw _ _ _ _ _ Hs).
    + exact (rearrange_shape _ bthwc_to_bcthw _ _ _ _ _ Hns).
    + apply normalized_wf, rearrange_wf.
    + apply rearrange_wf.
    + intros b c t h w Hb Hc Ht Hh Hw.
      rewrite (normalized_get self _ n0 n4 n1 n2 n3)
        by (try apply rearrange_wf; try exact (rearrange_shape x bthwc_to_bcthw _ _ _ _ _ Hs);
            assumption).
      rewrite !(rearrange_get_bcthw _ n0 n1 n2 n3 n4) by assumption.
      now rewrite (normalized_get self x n0 n1 n2 n3 n4).
  - apply (tensor5_ext _ _ n0 n1 n4 n2 n3).
    + rewrite normalized_shape. exact (rearrange_shape x bthwc_to_btchw _ _ _ _ _ Hs).
    + exact (rearrange_shape _ bthwc_to_btchw _ _ _ _ _ Hns).
    + apply normalized_wf, rearrange_wf.
    + apply rearrange_wf.
    + intros b t c h w Hb Ht Hc Hh Hw.
      rewrite (normalized_get self _ n0 n1 n4 n2 n3)
        by (try apply rearrange_wf; try exact (rearrange_shape x bthwc_to_btchw _ _ _ _ _ Hs);
            assumption).
      rewrite !(rearrange_get_btchw _ n0 n1 n2 n3 n4) by assumption.
      now rewrite (normalized_get self x n0 n1 n2 n3 n4).
Qed.

End MoreAdapters.

(** ** Steps that fail, and the accumulators over an epoch *)

Section MoreHooks.
Context {R : Type} {SR : Scalar R} {CR : Collaborators R}.

Lemma logits_of_exn (self : LitModel) (x : Tensor5 R) (e : exn) :
  logits_of self x = Raise e ->
  e = AttributeError "logits" \/ e = IndexError \/ e = TypeError.
Proof.
  unfold logits_of, rbind, getattr_logits, getitem_col0.
  destruct (String.eqb (model_name self) "videomae");
    destruct (run_backbone (model self) x) as [L|L];
    try destruct (ncols L =? 0); intros [= <-]; auto.
Qed.

(** X10. When the backbone has answered and the logit column cannot be
    taken from its answer (no [logits] field on the answer of a videomae
    object: [AttributeError]; a structured answer indexed with [[:,0]]:
    [TypeError]; a logits tensor without a column: [IndexError]), both
    steps raise that exception before the loss is computed: the object is
    exactly as before the step, no accumulator has seen the batch, and
    nothing but the backbone call has been made, no loss and no log. *)
Theorem step_failure (self : LitModel) (x : Tensor5 R) (y : list Z)
    (i : nat) (tr : list (event R)) (e : exn)
    (Hextract : logits_of self (_reshape self x) = Raise e) :
  (e = AttributeError "logits" \/ e = IndexError \/ e = TypeError) /\
  (e = AttributeError "logits" -> model_name self = "videomae") /\
  (e = TypeError -> model_name self <> "videomae") /\
  training_step (x, y) i (self, tr)
  = (Raise e, (self, tr ++ [EvModel (_reshape self x)])) /\
  validation_step (x, y) i (self, tr)
  = (Raise e, (self, tr ++ [EvModel (_reshape self x)])).
Proof.
  rewrite training_step_spec, validation_step_spec, Hextract.
  split; [now apply (logits_of_exn self (_reshape self x))|].
  split; [|split; [|now split]].
  - intros ->. revert Hextract.
    unfold logits_of, rbind, getattr_logits, getitem_col0.
    destruct (String.eqb_spec (model_name self) "videomae") as [Hn|Hn];
      [auto|].
    destruct (run_backbone (model self) (_reshape self x)) as [L|L];
      try destruct (ncols L =? 0); discriminate.
  - intros ->. revert Hextract.
    unfold logits_of, rbind, getattr_logits, getitem_col0.
    destruct (String.eqb_spec (model_name self) "videomae") as [Hn|Hn];
      [|auto].
    destruct (run_backbone (model self) (_reshape self x)) as [L|L];
      try destruct (ncols L =? 0); discriminate.
Qed.

(** *** What a hook leaves alone *)

Lemma get_set_metric (a b : metric_attr) (m : Metric.t R) (self : LitModel) :
  get_metric a (set_metric b m self)
  = if decide (a = b) then m else get_metric a self.
Proof.
  destruct (decide (a = b)) as [->|Hab].
  - destruct self, b; reflexivity.
  - destruct self, a, b; try reflexivity; congruence.
Qed.

Lemma get_fed (attrs : list metric_attr) (a : metric_attr) (p : list R)
    (y : list Z) (self : LitModel) :
  NoDup attrs ->
  get_metric a (fed attrs p y self)
  = if bool_decide (a ∈ attrs)
    then fst (Metric.update (get_metric a self) p y)
    else get_metric a self.
Proof.
  unfold fed. revert self.
  induction attrs as [|b attrs IH]; intros self Hnd; [reflexivity|].
  apply NoDup_cons in Hnd. destruct Hnd as [Hb Hnd].
  cbn [fold_left]. rewrite IH by exact Hnd. rewrite !get_set_metric.
  destruct (decide (a = b)) as [->|Hab].
  - rewrite (bool_decide_eq_false_2 _ Hb).
    now rewrite bool_decide_eq_true_2 by apply list_elem_of_here.
  - destruct (decide (a ∈ attrs)) as [Hin|Hin].
    + rewrite !bool_decide_eq_true_2; [reflexivity| |exact Hin].
      now apply list_elem_of_further.
    + rewrite !bool_decide_eq_false_2; [reflexivity| |exact Hin].
      intros Hc. apply elem_of_cons in Hc. tauto.
Qed.

Lemma attrs_nodup :
  NoDup (train_attrs : list metric_attr) /\ NoDup (val_step_attrs : list metric_attr)
  /\ NoDup (val_attrs : list metric_attr).
Proof.
  repeat split; apply NoDup_ListNoDup; repeat constructor; cbn;
    intuition discriminate.
Qed.

Lemma run_hook_other_split (w : world) (h : hook) (a : metric_attr) :
  is_train a = negb (is_train_hook h) ->
  get_metric a (fst (run_hook w h)) = get_metric a (fst w).
Proof.
  destruct attrs_nodup as (Ht & Hvs & Hv).
  destruct w as [self tr]. destruct h as [[x y] i|[x y] i| |];
    cbn [run_hook is_train_hook negb fst]; intros Ha.
  - rewrite training_step_spec.
    destruct (logits_of self (_reshape self x)); cbn [fst snd]; [|reflexivity].
    rewrite get_fed by exact Ht. destruct a; try discriminate Ha; reflexivity.
  - rewrite validation_step_spec.
    destruct (logits_of self (_reshape self x)); cbn [fst snd]; [|reflexivity].
    rewrite get_fed by exact Hvs. destruct a; try discriminate Ha; reflexivity.
  - rewrite training_epoch_end_spec. cbn [fst snd].
    rewrite get_cleared by exact Ht. destruct a; try discriminate Ha; reflexivity.
  - rewrite validation_epoch_end_spec. cbn [fst snd].
    rewrite get_cleared by exact Hv. destruct a; try discriminate Ha; reflexivity.
Qed.

(** X11. The two phases do not share accumulators: a run of training steps
    and training epoch ends leaves every validation accumulator as it was,
    and a run of validation steps and validation epoch ends leaves every
    training accumulator as it was. *)
Theorem phases_are_separate (hs : list hook) (w : world) (a : metric_attr)
    (Hphase : Forall (fun h => is_train a = negb (is_train_hook h)) hs) :
  get_metric a (fst (run_hooks hs w)) = get_metric a (fst w).
Proof.
  unfold run_hooks. revert w.
  induction Hphase as [|h hs Hh _ IH]; intros w; [reflexivity|].
  cbn [fold_left]. rewrite IH. now apply run_hook_other_split.
Qed.

(** *** What no hook changes *)

Lemma same_configuration_refl (self : LitModel) : same_configuration self self.
Proof. now repeat split. Qed.

Lemma same_configuration_trans (s1 s2 s3 : LitModel) :
  same_configuration s1 s2 -> same_configuration s2 s3 -> same_configuration s1 s3.
Proof.
  intros (Hh1 & Hc1 & Hk1) (Hh2 & Hc2 & Hk2).
  split; [congruence|]. split; [congruence|].
  intros a. now rewrite Hk2, Hk1.
Qed.

Lemma same_configuration_set_metric (b : metric_attr) (m : Metric.t R)
    (self : LitModel) :
  Metric.kind m = Metric.kind (get_metric b self) ->
  same_configuration self (set_metric b m self).
Proof.
  intros Hk. repeat split; try (destruct self, b; reflexivity).
  intros a. rewrite get_set_metric. now destruct (decide (a = b)) as [->|_].
Qed.

Lemma same_configuration_fed (attrs : list metric_attr) (p : list R)
    (y : list Z) (self : LitModel) :
  same_configuration self (fed attrs p y self).
Proof.
  unfold fed. revert self. induction attrs as [|b attrs IH]; intros self;
    [apply same_configuration_refl|].
  cbn [fold_left]. eapply same_configuration_trans; [|apply IH].
  now apply same_configuration_set_metric.
Qed.

Lemma same_configuration_cleared (attrs : list metric_attr) (self : LitModel) :
  same_configuration self (cleared attrs self).
Proof.
  unfold cleared. revert self. induction attrs as [|b attrs IH]; intros self;
    [apply same_configuration_refl|].
  cbn [fold_left]. eapply same_configuration_trans; [|apply IH].
  now apply same_configuration_set_metric.
Qed.

Lemma same_configuration_run_hook (w : world) (h : hook) :
  same_configuration (fst w) (fst (run_hook w h)).
Proof.
  destruct w as [self tr]. destruct h as [[x y] i|[x y] i| |];
    cbn [run_hook fst].
  - rewrite training_step_spec.
    destruct (logits_of self (_reshape self x)); cbn [fst snd];
      [apply same_configuration_fed|apply same_configuration_refl].
  - rewrite validation_step_spec.
    destruct (logits_of self (_reshape self x)); cbn [fst snd];
      [apply same_configuration_fed|apply same_configuration_refl].
  - rewrite training_epoch_end_spec. apply same_configuration_cleared.
  - rewrite validation_epoch_end_spec. apply same_configuration_cleared.
Qed.

Lemma same_configuration_run_hooks (hs : list hook) (w : world) :
  same_configuration (fst w) (fst (run_hooks hs w)).
Proof.
  unfold run_hooks. revert w. induction hs as [|h hs IH]; intros w;
    [apply same_configuration_refl|].
  cbn [fold_left]. eapply same_configuration_trans; [|apply IH].
  apply same_configuration_run_hook.
Qed.

(** X12. Whatever steps and epoch ends have run, the object has the
    hyperparameters and the loss it had, each accumulator is still of its
    class, and [configure_optimizers] returns what it would have returned
    before them. *)
Theorem hooks_keep_configuration (hs : list hook) (self : LitModel)
    (tr : list (event R)) :
  hyperparameters (fst (run_hooks hs (self, tr))) = hyperparameters self /\
  criterion (fst (run_hooks hs (self, tr))) = criterion self /\
  (forall a, Metric.kind (get_metric a (fst (run_hooks hs (self, tr))))
             = Metric.kind (get_metric a self)) /\
  configure_optimizers (fst (run_hooks hs (self, tr))) = configure_optimizers self.
Proof.
  destruct (same_configuration_run_hooks hs (self, tr)) as (Hh & Hc & Hk).
  cbn [fst] in Hh, Hc, Hk. repeat split; try assumption.
  unfold hyperparameters in Hh. injection Hh as Hlr Hwd Hsn Hms Hg.
  unfold configure_optimizers. now rewrite Hlr, Hwd, Hsn, Hms, Hg.
Qed.

(** X4. [__init__] stores the scheduler name without looking at it: when
    construction has returned an object for a name other than
    "multi-step-lr", the object carries that name, and
    [configure_optimizers] on it returns no configuration, also after any
    steps and epoch ends have run. *)
Theorem scheduler_checked_late (tag p : string) (n : Z) (lr wd : R)
    (lf : string) (fg : R) (sn : string) (ms : list Z) (g : R) (v : pyval)
    (self : LitModel) (hs : list hook) (tr : list (event R))
    (Hinit : init tag p n lr wd lf fg sn ms g v = Ok self)
    (Hname : sn <> "multi-step-lr") :
  scheduler_name self = sn /\
  (forall cfg, configure_optimizers self <> Ok cfg) /\
  (forall cfg, configure_optimizers (fst (run_hooks hs (self, tr))) <> Ok cfg).
Proof.
  assert (Hsn : scheduler_name self = sn).
  { unfold init in Hinit.
    destruct (configure_model tag p v n) as [m|e]; [|discriminate Hinit].
    cbn in Hinit. now injection Hinit as <-. }
  assert (Hfails : forall s : LitModel,
             scheduler_name s = sn -> forall cfg, configure_optimizers s <> Ok cfg).
  { intros s Hs cfg.
    unfold configure_optimizers, configure_scheduler, scheduler_local.
    rewrite Hs. apply String.eqb_neq in Hname. rewrite Hname. discriminate. }
  split; [exact Hsn|]. split; [now apply Hfails|].
  apply Hfails.
  destruct (same_configuration_run_hooks hs (self, tr)) as (Hh & _ & _).
  cbn [fst] in Hh. unfold hyperparameters in Hh.
  injection Hh as _ _ Hn _ _. congruence.
Qed.

End MoreHooks.

(** ** A validation epoch *)

Section MoreEpochs.
Context {R : Type} {SR : Scalar R} {CR : Collaborators R}.






End MoreEpochs.

(** ** The further properties on the small instance *)

(** X3 at the videomae object. *)
Lemma init_object_witness :
  model_name Toy.videomae_rgb = "videomae" /\
  backbone_of_tag (model_name Toy.videomae_rgb) (model Toy.videomae_rgb) = true.
Proof.
  destruct (init_object "videomae" "w.pth" 16 (1 # 10000)%Q 0%Q "bce" 2%Q
              "multi-step-lr" [5; 10]%Z (1 # 10)%Q (PyBool false)
              Toy.videomae_rgb eq_refl)
    as (Hname & _ & _ & _ & _ & Hclass & _).
  exact (conj Hname Hclass).
Defined.

(** X1 at the r2plus1 object. *)
Lemma configure_optimizers_returns_witness :
  exists cfg,
    configure_optimizers Toy.r2plus1_rgb = Ok cfg /\
    optimizer cfg = Adam (1 # 10000)%Q 0%Q /\
    scheduler (lr_scheduler cfg)
    = MultiStepLR (Adam (1 # 10000)%Q 0%Q) [5; 10]%Z (1 # 10)%Q.
Proof.
  eexists. split; [reflexivity|].
  destruct (configure_optimizers_returns Toy.r2plus1_rgb _ eq_refl)
    as (_ & Hoptimizer & Hscheduler & _).
  exact (conj Hoptimizer Hscheduler).
Defined.

(** X2 at the videomae object. *)
Lemma init_succeeds_only_if_witness :
  ("videomae" = "timesformer" /\
   (py_eq (PyBool false) (PyBool false) = true
    \/ py_eq (PyBool false) (PyBool true) = true
    \/ py_eq (PyBool false) (PyStr "only") = true))
  \/ "videomae" = "r2plus1" \/ "videomae" = "videomae".
Proof.
  exact (init_succeeds_only_if "videomae" "w.pth" 16 (1 # 10000)%Q 0%Q "bce"
           2%Q "multi-step-lr" [5; 10]%Z (1 # 10)%Q (PyBool false)
           Toy.videomae_rgb eq_refl).
Defined.

(** X4 at the scheduler name "cosine", before and after a training step. *)
Lemma scheduler_checked_late_witness :
  scheduler_name Toy.r2plus1_cosine = "cosine" /\
  (forall cfg, configure_optimizers Toy.r2plus1_cosine <> Ok cfg) /\
  (forall cfg,
      configure_optimizers
        (fst (run_hooks [TrainingStep (Toy.clip, [1; 0]%Z) 0]
                (Toy.r2plus1_cosine, [])))
      <> Ok cfg).
Proof.
  exact (scheduler_checked_late "r2plus1" "w.pth" 16 (1 # 10000)%Q 0%Q "bce"
           2%Q "cosine" [5; 10]%Z (1 # 10)%Q (PyBool false)
           Toy.r2plus1_cosine [TrainingStep (Toy.clip, [1; 0]%Z) 0] []
           eq_refl ltac:(discriminate)).
Defined.

(** X6 at the documented string "true". *)
Lemma string_modes_witness :
  in_chans_local (PyStr "true") = None /\
  configure_model "timesformer" "w.pth" (PyStr "true") 16
  = Raise (UnboundLocalError "in_chans").
Proof.
  destruct (string_modes "true" "w.pth" 16 ltac:(discriminate))
    as (_ & _ & Hlocal & Hraise).
  exact (conj Hlocal Hraise).
Defined.

(** X7 at the last element of the clip, 12, in the second sample. *)
Lemma normalized_elements_witness :
  get5 (normalized Toy.r2plus1_rgb Toy.clip) 1 0 0 1 2 = (23 # 2)%Q.
Proof.
  destruct (normalized_elements Toy.r2plus1_rgb Toy.clip 2 1 1 2 3 1 0 0 1 2
              eq_refl clip_wf ltac:(lia) ltac:(lia) ltac:(lia) ltac:(lia)
              ltac:(lia))
    as (_ & _ & Helement).
  rewrite Helement. vm_compute. reflexivity.
Defined.


(** X9 at the timesformer object and the clip. *)
Lemma normalize_reshape_commute_witness :
  normalized Toy.timesformer_rgb (_reshape Toy.timesformer_rgb Toy.clip)
  = _reshape Toy.timesformer_rgb (normalized Toy.timesformer_rgb Toy.clip).
Proof.
  exact (normalize_reshape_commute Toy.timesformer_rgb Toy.clip clip_wf).
Defined.

(** X10 over the network without output class: both steps stop on the
    [IndexError] of [[:,0]] and the object is untouched. *)
Lemma step_failure_witness :
  @training_step Q Toy.Q_scalar Toy.headless_collaborators
    (Toy.clip, [1; 0]%Z) 0 (Toy.r2plus1_headless, [])
  = (Raise IndexError, (Toy.r2plus1_headless, [EvModel Toy.clip])) /\
  @validation_step Q Toy.Q_scalar Toy.headless_collaborators
    (Toy.clip, [1; 0]%Z) 0 (Toy.r2plus1_headless, [])
  = (Raise IndexError, (Toy.r2plus1_headless, [EvModel Toy.clip])).
Proof.
  destruct (@step_failure Q Toy.Q_scalar Toy.headless_collaborators
              Toy.r2plus1_headless Toy.clip [1; 0]%Z 0 [] IndexError eq_refl)
    as (_ & _ & _ & Htrain & Hval).
  exact (conj Htrain Hval).
Defined.

(** X11 at a training step followed by a training epoch end. *)
Lemma phases_are_separate_witness :
  get_metric ValAccuracy
    (fst (run_hooks [TrainingStep (Toy.clip, [1; 0]%Z) 0; TrainingEpochEnd]
            (Toy.r2plus1_rgb, [])))
  = get_metric ValAccuracy Toy.r2plus1_rgb.
Proof.
  assert (Hphase : Forall (fun h : @hook Q => is_train ValAccuracy
                                              = negb (is_train_hook h))
                     [TrainingStep (Toy.clip, [1; 0]%Z) 0; TrainingEpochEnd])
    by (repeat constructor).
  exact (phases_are_separate _ (Toy.r2plus1_rgb, []) ValAccuracy Hphase).
Defined.


(** ** What a training step logs, and what the keypoint mode reaches *)

Section MoreSteps.
Context {R : Type} {SR : Scalar R} {CR : Collaborators R}.

Lemma batch_value_kind (a : metric_attr) (s s' : LitModel) (p : list R)
    (y : list Z) :
  Metric.kind (get_metric a s') = Metric.kind (get_metric a s) ->
  batch_value a s' p y = batch_value a s p y.
Proof. unfold batch_value, Metric.forward. cbn [snd]. now intros ->. Qed.

(** X14. What a training step returns and what it hands to its
    collaborators (the backbone input, the loss call, the accumulator
    calls, the six logged values) depend on the batch and on what was
    selected at construction, not on what the accumulators have seen: two
    objects with the same selection, loss and accumulator classes return
    the same and emit the same events. The logged step metrics are those
    of the current batch alone. *)
Theorem training_step_ignores_history (self self' : LitModel) (x : Tensor5 R)
    (y : list Z) (i : nat) (tr tr' : list (event R))
    (Hselection : selection self' = selection self)
    (Hcriterion : criterion self' = criterion self)
    (Hkinds : forall a, Metric.kind (get_metric a self')
                        = Metric.kind (get_metric a self)) :
  fst (training_step (x, y) i (self', tr'))
  = fst (training_step (x, y) i (self, tr)) /\
  exists new,
    snd (snd (training_step (x, y) i (self, tr))) = tr ++ new /\
    snd (snd (training_step (x, y) i (self', tr'))) = tr' ++ new.
Proof.
  rewrite !training_step_spec.
  assert (Hr : _reshape self' x = _reshape self x).
  { unfold selection in Hselection. injection Hselection as Hn _ _.
    unfold _reshape. now rewrite Hn. }
  assert (Hl : logits_of self' (_reshape self' x) = logits_of self (_reshape self x)).
  { rewrite Hr. unfold selection in Hselection. injection Hselection as Hn _ Hm.
    unfold logits_of. now rewrite Hn, Hm. }
  rewrite Hl, Hr.
  destruct (logits_of self (_reshape self x)) as [y_hat|e]; cbn [fst snd].
  - rewrite Hcriterion. split; [reflexivity|].
    eexists. split; [reflexivity|].
    now rewrite !(batch_value_kind _ self self') by apply Hkinds.
  - split; [reflexivity|]. eexists. split; reflexivity.
Qed.

(** X15. The keypoint mode and the pretrained path reach the timesformer
    constructor only: for any other tag, [configure_model] gives the same
    result whatever they are. *)
Theorem keypoints_reach_timesformer_only (tag p p' : string) (v v' : pyval)
    (n : Z) (Htag : tag <> "timesformer") :
  configure_model tag p v n = configure_model tag p' v' n.
Proof.
  apply String.eqb_neq in Htag.
  unfold configure_model, model_local. now rewrite Htag.
Qed.

End MoreSteps.

(** X14 at a fresh object and at one that has been through an epoch. *)
Lemma training_step_ignores_history_witness :
  fst (training_step (Toy.clip, [1; 0]%Z) 7
         (fst (run_hooks [TrainingStep (Toy.ones 1 1 1 1 3, [0]%Z) 0;
                          ValidationStep (Toy.clip, [0; 0]%Z) 0]
                 (Toy.r2plus1_rgb, [])), []))
  = fst (training_step (Toy.clip, [1; 0]%Z) 7 (Toy.r2plus1_rgb, [])).
Proof.
  refine (proj1 (training_step_ignores_history Toy.r2plus1_rgb _ Toy.clip
                   [1; 0]%Z 7 [] [] _ _ _)).
  - reflexivity.
  - reflexivity.
  - intros a. destruct a; reflexivity.
Defined.

(** X15 at the r2plus1 tag, with keypoints off and on. *)
Lemma keypoints_reach_timesformer_only_witness :
  configure_model "r2plus1" "w.pth" (PyBool false) 16
  = configure_model "r2plus1" "other.pth" (PyBool true) 16.
Proof.
  exact (keypoints_reach_timesformer_only "r2plus1" "w.pth" "other.pth"
           (PyBool false) (PyBool true) 16 ltac:(discriminate)).
Defined.
